(** * TransactionBatch: spending-solution generation

    A shallow embedding of [src/transaction/transaction-batch.ts]
    (class [TransactionBatch]) and proofs about its UTXO selection,
    its error behaviour and the frame of its mutators.

    Amounts are JavaScript [bigint]s and become [Z]; array indices and
    lengths become [nat]; the object used as a dictionary
    ([unshieldDataMap]) and the wallet's per-token balances become
    [gmap string _]; [Optional<T>] becomes [option T]; a [throw] becomes
    the [Thrown] outcome of the result type [Res]. *)

From stdpp Require Import gmap strings list sorting pretty.

Local Open Scope Z_scope.

(** ** Data model *)

Inductive TokenType := ERC20 | ERC721 | ERC1155.

Record TokenData := {
  tokenType : TokenType;
  tokenAddress : string;
  tokenSubID : string
}.

Record AdaptID := {
  contract : string;
  parameters : string
}.

Inductive ChainType := EVM.

Record Chain := {
  chainType : ChainType;
  chainId : nat
}.

Module TransactNote.
Record t := {
  tokenData : TokenData;
  tokenHash : string;
  value : Z
}.
End TransactNote.

Module UnshieldData.
Record t := {
  toAddress : string;
  value : Z;
  tokenData : TokenData
}.
End UnshieldData.

Module TXO.
Record t := {
  tree : nat;
  position : nat;
  note : TransactNote.t
}.
End TXO.

Module TreeBalance.
Record t := {
  balance : Z;
  utxos : list TXO.t
}.
End TreeBalance.

Module SpendingSolutionGroup.
Record t := {
  utxos : list TXO.t;
  spendingTree : nat;
  unshieldValue : Z;
  tokenOutputs : list TransactNote.t;
  tokenData : TokenData
}.
End SpendingSolutionGroup.

(** The object destructured from [createSimpleSatisfyingUTXOGroup]. *)
Module UTXOGroup.
Record t := {
  utxos : list TXO.t;
  spendingTree : nat;
  amount : Z
}.
End UTXOGroup.

(** The wallet is consulted through [balancesByTree] only. *)
Record RailgunWallet := {
  balancesByTree : Chain → gmap string (list TreeBalance.t)
}.

(** The private fields of the class.  [unshieldDataMap] is an object
    indexed by token hash; token hashes are hex strings, so a lookup never
    meets a property inherited from [Object.prototype], and a recorded
    [UnshieldData] is an object, hence truthy: [unshieldDataMap[tokenHash]]
    is truthy exactly when the key is present. *)
Record TransactionBatch := {
  adaptID : AdaptID;
  chain : Chain;
  outputs : list TransactNote.t;
  unshieldDataMap : gmap string UnshieldData.t;
  overallBatchMinGasPrice : Z
}.

(** The comparisons [>] of the source, decided. *)
Global Instance Z_gt_dec' : RelDecision Z.gt := Z_gt_dec.
Global Instance nat_gt_dec' : RelDecision gt := gt_dec.

(** ** Errors and outcomes *)

(** One constructor per [throw] of the class, with the text it carries in
    the source. *)
Inductive Error :=
  (* 'You may only call .addUnshieldData once per token for a given
     TransactionBatch.' *)
  | UnshieldOncePerToken
  (* 'Unshield value must be greater than 0.' *)
  | UnshieldValueZero
  (* `Can not find RAILGUN wallet balance for ERC20 token: ${tokenAddress}` *)
  | NoBalanceERC20 (tokenAddress : string)
  (* `Can not find RAILGUN wallet balance for NFT with token ID: ${tokenHash}` *)
  | NoBalanceNFT (tokenHash : string)
  (* `RAILGUN private token balance for ${tokenAddress} too low.` *)
  | BalanceTooLowERC20 (tokenAddress : string)
  (* `RAILGUN private NFT balance too low.` *)
  | BalanceTooLowNFT
  (* 'Could not find UTXOs to satisfy required amount.' *)
  | NotSatisfied
  (* 'Requires 3 outputs, given a unshield and at least one standard output.' *)
  | Requires3Outputs
  (* 'No spending solutions found. Must use complex UTXO aggregator.' *)
  | NoSpendingSolutions
  (* [consolidateBalanceError()], imported from [solutions/complex-solutions] *)
  | ConsolidateBalance.

Inductive Res (A : Type) :=
  | Returned (a : A)
  | Thrown (e : Error).
Arguments Returned {A} a.
Arguments Thrown {A} e.

Global Instance Res_ret : MRet Res := λ A a, Returned a.
Global Instance Res_bind : MBind Res := λ A B k m,
  match m with
  | Returned a => k a
  | Thrown e => Thrown e
  end.

(** [try { m } catch (err) { h err }] *)
Definition tryCatch {A} (m : Res A) (h : Error → Res A) : Res A :=
  match m with
  | Returned a => Returned a
  | Thrown e => h e
  end.

(** Methods that assign to [this]: the batch is threaded, and a throw
    hands back the batch as the assignments made so far left it. *)
Definition Method (A : Type) : Type := TransactionBatch → TransactionBatch * Res A.

Global Instance Method_ret : MRet Method := λ A a b, (b, Returned a).
Global Instance Method_bind : MBind Method := λ A B k m b,
  match m b with
  | (b', Returned a) => k a b'
  | (b', Thrown e) => (b', Thrown e)
  end.

Definition throw {A} (e : Error) : Method A := λ b, (b, Thrown e).
Definition this : Method TransactionBatch := λ b, (b, Returned b).
Definition assign (b' : TransactionBatch) : Method unit := λ _, (b', Returned ()).

(** [Array.prototype.forEach((item, index) => ...)] with the variables
    the callback assigns to made an explicit state. *)
Fixpoint forEach {A S} (f : S → A → nat → S) (l : list A) (index : nat) (s : S) : S :=
  match l with
  | [] => s
  | item :: rest => forEach f rest (Datatypes.S index) (f s item index)
  end.

(** [reduce((left, right) => left + right.value, BigInt(0))] and
    [reduce((left, right) => left + right.balance, BigInt(0))]:
    [bigint] addition, of unbounded precision. *)
Definition outputTotal (tokenOutputs : list TransactNote.t) : Z :=
  fold_left (λ left right, left + TransactNote.value right) tokenOutputs 0.

Definition tokenBalance (treeSortedBalances : list TreeBalance.t) : Z :=
  fold_left (λ left right, left + TreeBalance.balance right) treeSortedBalances 0.

(** Modelled from the spec: [calculateTotalSpend] of [solutions/utxos] is
    not among the sources; the spending-solution invariant reads the
    amount of a UTXO set as the sum of the values of its notes. *)
Definition calculateTotalSpend (utxos : list TXO.t) : Z :=
  fold_left (λ left right, left + TransactNote.value (TXO.note right)) utxos 0.

(** ** The solver helpers, from their description

    The class imports its solver from [solutions/*] and the token hash
    from [note/note-util].  The class is embedded over any such helpers
    (next section); the definitions here give one instance of each, to
    run the class on concrete wallets. *)

(** [utxo.note.value] *)
Definition noteValue (utxo : TXO.t) : Z := TransactNote.value (TXO.note utxo).

(** Modelled from the spec: [getTokenDataHash] is not among the sources.
    The token-hash is a hash of [tag || addr || subId]; the hash function
    is left out and the preimage stands for its own hash. *)
Definition refTokenDataHash (tokenData : TokenData) : string :=
  match tokenType tokenData with
  | ERC20 => "0"
  | ERC721 => "1"
  | ERC1155 => "2"
  end +:+ tokenAddress tokenData +:+ tokenSubID tokenData.

(** Modelled from the spec: the input arities that the circuit allows,
    1, 2 or 8 inputs; [solutions/nullifiers] is not among the sources. *)
Definition refIsValidNullifierCount (utxoCount : nat) : bool :=
  bool_decide (utxoCount ∈ [1; 2; 8]%nat).

(** Modelled from the spec: [isValidFor3Outputs] of [solutions/nullifiers]
    is not among the sources.  A group of 3 outputs requires a valid input
    count: 3 inputs are forbidden, only 1, 2 or 8 are allowed. *)
Definition refIsValidFor3Outputs (utxoCount : nat) : bool :=
  refIsValidNullifierCount utxoCount.

(** Modelled from the spec: the greedy step of the search below; the next
    largest UTXO is taken while the sum of the ones taken is below the
    target. *)
Fixpoint refAccumulate (target : Z) (sorted taken : list TXO.t) : list TXO.t :=
  match sorted with
  | [] => taken
  | utxo :: rest =>
      if bool_decide (calculateTotalSpend taken < target)
      then refAccumulate target rest (taken ++ [utxo])
      else taken
  end.

(** Modelled from the spec: the order of the greedy search below, larger
    UTXOs first. *)
Definition bySize (x y : TXO.t) : Prop := noteValue y ≤ noteValue x.
Global Instance bySize_dec : RelDecision bySize := λ x y, Z.le_dec _ _.

(** Modelled from the spec: [findExactSolutionsOverTargetValue] is not
    among the sources.  A greedy search, in one tree, for a subset of the
    UTXOs whose sum meets the target while respecting the allowed input
    arities. *)
Definition refFindExactSolutionsOverTargetValue
    (treeBalance : TreeBalance.t) (totalRequired : Z) : option (list TXO.t) :=
  if bool_decide (TreeBalance.balance treeBalance < totalRequired) then None
  else
    let nonzero := filter (λ utxo, noteValue utxo ≠ 0) (TreeBalance.utxos treeBalance) in
    let sorted := merge_sort bySize nonzero in
    let taken := refAccumulate totalRequired sorted [] in
    if bool_decide (calculateTotalSpend taken < totalRequired) then None
    else if refIsValidNullifierCount (length taken) then Some taken
    else None.

(** Modelled from the spec: the id under which a UTXO is excluded; a TXO
    is unique by its tree number and leaf index. *)
Definition refUTXOID (utxo : TXO.t) : string :=
  pretty (TXO.tree utxo) +:+ "-" +:+ pretty (TXO.position utxo).

(** Modelled from the spec: the state of a slicing pass of the complex
    path, which is the groups made, the amount left to cover, and the
    excluded UTXO ids. *)
Definition SliceState : Type := list SpendingSolutionGroup.t * Z * list string.

(** Modelled from the spec: one tree of a slicing pass.  Every UTXO that
    is neither empty nor excluded makes a group of its own, drawing from
    this tree, while an amount is left; its id is excluded from then on. *)
Fixpoint refSliceTree (mkGroup : nat → TXO.t → Z → SpendingSolutionGroup.t)
    (tree : nat) (utxos : list TXO.t) (s : SliceState) : SliceState :=
  match utxos with
  | [] => s
  | utxo :: rest =>
      let '(groups, amountLeft, excluded) := s in
      if bool_decide (amountLeft > 0) && bool_decide (noteValue utxo > 0)
         && bool_decide (refUTXOID utxo ∉ excluded)
      then
        let solutionValue := Z.min (noteValue utxo) amountLeft in
        refSliceTree mkGroup tree rest
          (groups ++ [mkGroup tree utxo solutionValue],
           amountLeft - noteValue utxo,
           excluded ++ [refUTXOID utxo])
      else refSliceTree mkGroup tree rest s
  end.

(** Modelled from the spec: a slicing pass over the trees, low to high. *)
Definition refSlice (mkGroup : nat → TXO.t → Z → SpendingSolutionGroup.t)
    (treeSortedBalances : list TreeBalance.t) (amount : Z)
    (excludedUTXOIDs : list string) : SliceState :=
  forEach (λ s treeBalance tree,
             refSliceTree mkGroup tree (TreeBalance.utxos treeBalance) s)
    treeSortedBalances 0%nat ([], amount, excludedUTXOIDs).

(** Modelled from the spec: the slice of an output that carries [value]. *)
Definition withValue (output : TransactNote.t) (value : Z) : TransactNote.t :=
  {| TransactNote.tokenData := TransactNote.tokenData output;
     TransactNote.tokenHash := TransactNote.tokenHash output;
     TransactNote.value := value |}.

(** Modelled from the spec: [createSpendingSolutionGroupsForOutput] is not
    among the sources.  It slices the output across groups, each drawing
    from one tree, and tracks the excluded UTXO ids; the output leaves the
    remaining outputs once covered, and stays with the amount still to
    cover otherwise. *)
Definition refCreateSpendingSolutionGroupsForOutput
    (tokenData : TokenData) (treeSortedBalances : list TreeBalance.t)
    (transactOutput : TransactNote.t) (remainingOutputs : list TransactNote.t)
    (excludedUTXOIDs : list string)
    : list SpendingSolutionGroup.t * list TransactNote.t * list string :=
  let mkGroup tree utxo solutionValue :=
    {| SpendingSolutionGroup.utxos := [utxo];
       SpendingSolutionGroup.spendingTree := tree;
       SpendingSolutionGroup.unshieldValue := 0;
       SpendingSolutionGroup.tokenOutputs := [withValue transactOutput solutionValue];
       SpendingSolutionGroup.tokenData := tokenData |} in
  let '(groups, amountLeft, excluded) :=
    refSlice mkGroup treeSortedBalances (TransactNote.value transactOutput)
      excludedUTXOIDs in
  match groups with
  | [] => ([], remainingOutputs, excluded)
  | _ =>
      if bool_decide (amountLeft > 0)
      then (groups, withValue transactOutput amountLeft :: tail remainingOutputs, excluded)
      else (groups, tail remainingOutputs, excluded)
  end.

(** Modelled from the spec: [createSpendingSolutionGroupsForUnshield] is
    not among the sources.  It handles the unshield value as the output
    pass handles an output; an unshield that the groups do not cover
    yields no groups. *)
Definition refCreateSpendingSolutionGroupsForUnshield
    (tokenData : TokenData) (treeSortedBalances : list TreeBalance.t)
    (unshieldValue : Z) (excludedUTXOIDs : list string)
    : list SpendingSolutionGroup.t * list string :=
  let mkGroup tree utxo solutionValue :=
    {| SpendingSolutionGroup.utxos := [utxo];
       SpendingSolutionGroup.spendingTree := tree;
       SpendingSolutionGroup.unshieldValue := solutionValue;
       SpendingSolutionGroup.tokenOutputs := [];
       SpendingSolutionGroup.tokenData := tokenData |} in
  let '(groups, amountLeft, excluded) :=
    refSlice mkGroup treeSortedBalances unshieldValue excludedUTXOIDs in
  if bool_decide (amountLeft > 0) then ([], excluded) else (groups, excluded).

(** The invariant of a slicing pass: the amount left never grows, and it
    has gone down as soon as a group is made. *)
Definition sliceInv (amount : Z) (s : SliceState) : Prop :=
  s.1.2 ≤ amount ∧ (s.1.1 ≠ [] → s.1.2 < amount).

(** The measure that the output pass above decreases: an output counts
    for one plus the amount it still has to be covered for. *)
Definition refMeasure (remainingOutputs : list TransactNote.t) : nat :=
  foldr (λ output n, (1 + Z.to_nat (TransactNote.value output) + n)%nat) 0%nat
    remainingOutputs.

(** The sum of a list of amounts. *)
Definition sumZ (amounts : list Z) : Z := foldr Z.add 0 amounts.

(** The largest amount of 120 bits. *)
Definition MAX_UINT120 : Z := 2 ^ 120 - 1.

(** ** The earlier version of the class

    The source file holds an earlier [TransactionBatch] as well: one
    token per batch, a single withdraw, and no complex path. *)

Module Legacy.

Inductive TokenType := ERC20 | ERC721 | ERC1155.

Module Note.
Record t := {
  token : string;
  value : Z
}.
End Note.

Module TXO.
Record t := {
  tree : nat;
  position : nat;
  note : Note.t
}.
End TXO.

Module TreeBalance.
Record t := {
  balance : Z;
  utxos : list TXO.t
}.
End TreeBalance.

Module SpendingSolutionGroup.
Record t := {
  utxos : list TXO.t;
  spendingTree : nat;
  withdrawValue : Z;
  outputs : list Note.t
}.
End SpendingSolutionGroup.

Module UTXOGroup.
Record t := {
  utxos : list TXO.t;
  spendingTree : nat;
  amount : Z
}.
End UTXOGroup.

Record Wallet := {
  balancesByTree : nat → gmap string (list TreeBalance.t)
}.

Record TransactionBatch := {
  chainID : nat;
  tokenAddress : string;
  outputs : list Note.t;
  tokenType : TokenType;
  withdrawAddress : option string;
  withdrawTotal : Z;
  overrideWithdrawAddress : option string
}.

Inductive Error :=
  (* 'You may only call .withdraw once for a given transaction batch.' *)
  | WithdrawOnce
  (* what [BigInt(value)] throws on a value that is no integer *)
  | BigIntConversion
  (* `Token address mismatch on output ${index}` *)
  | TokenAddressMismatch (index : nat)
  (* `No wallet balance for token: ${formattedTokenAddress}` *)
  | NoWalletBalance (formattedTokenAddress : string)
  (* 'Wallet balance too low' *)
  | WalletBalanceTooLow
  (* 'Could not find UTXOs to satisfy required amount.' *)
  | NotSatisfied
  (* 'You must consolidate balances before multi-sending. Send tokens to
     one destination address at a time to resolve.' *)
  | ConsolidateBeforeMultiSend
  (* 'Complex TXO spending group required. Please consolidate balances or
     send in increments.' *)
  | ComplexRequired.

Inductive Res (A : Type) :=
  | Returned (a : A)
  | Thrown (e : Error).
Arguments Returned {A} a.
Arguments Thrown {A} e.

(** [try { m } catch (err) { h err }] *)
Definition tryCatch {A} (m : Res A) (h : Error → Res A) : Res A :=
  match m with
  | Returned a => Returned a
  | Thrown e => h e
  end.

(** [forEach] with a callback that may throw: the first throw ends the
    iteration. *)
Fixpoint forEachThrowing {A} (f : A → nat → Res unit) (l : list A) (index : nat)
    : Res unit :=
  match l with
  | [] => Returned ()
  | item :: rest =>
      match f item index with
      | Returned _ => forEachThrowing f rest (S index)
      | Thrown e => Thrown e
      end
  end.

Definition outputTotal (outputs : list Note.t) : Z :=
  fold_left (λ left right, left + Note.value right) outputs 0.

Definition balanceTotal (treeSortedBalances : list TreeBalance.t) : Z :=
  fold_left (λ left right, left + TreeBalance.balance right) treeSortedBalances 0.

(** Modelled from the spec: [calculateTotalSpend] of [./solutions] is not
    among the sources; the amount of a UTXO set is the sum of the values
    of its notes. *)
Definition calculateTotalSpend (utxos : list TXO.t) : Z :=
  fold_left (λ left right, left + Note.value (TXO.note right)) utxos 0.

Section Class.

(** Imported from modules that are not among the sources.  [BigInt] is
    the built-in conversion, [None] where it throws; [formatToByteLength]
    takes its optional third argument as an option; [findSolutions] is
    handed the array [excludedUTXOIDs] and gives it back as it left it. *)
Variable BigIntish : Type.
Variable BigInt : BigIntish → option Z.
Variable formatToByteLength : string → nat → option bool → string.
Variable trim : string → nat → string.
Variable ByteLength_Address : nat.
Variable findSolutions :
  TreeBalance.t → Z → list string → option (list TXO.t) * list string.

Definition ByteLength_UINT_256 : nat := 32.

Definition newTransactionBatch (tokenAddress : string) (tokenType : TokenType)
    (chainID : nat) : TransactionBatch :=
  {| chainID := chainID;
     tokenAddress := formatToByteLength tokenAddress ByteLength_UINT_256 None;
     outputs := [];
     tokenType := tokenType;
     withdrawAddress := None;
     withdrawTotal := 0;
     overrideWithdrawAddress := None |}.

Definition addOutput (output : Note.t) (b : TransactionBatch)
    : TransactionBatch * Res unit :=
  ({| chainID := chainID b; tokenAddress := tokenAddress b;
      outputs := outputs b ++ [output];
      tokenType := tokenType b; withdrawAddress := withdrawAddress b;
      withdrawTotal := withdrawTotal b;
      overrideWithdrawAddress := overrideWithdrawAddress b |}, Returned ()).

Definition resetOutputs (b : TransactionBatch) : TransactionBatch * Res unit :=
  ({| chainID := chainID b; tokenAddress := tokenAddress b;
      outputs := [];
      tokenType := tokenType b; withdrawAddress := withdrawAddress b;
      withdrawTotal := withdrawTotal b;
      overrideWithdrawAddress := overrideWithdrawAddress b |}, Returned ()).

(** The three assignments of [setWithdraw] are made one after the other:
    [this.withdrawAddress] is assigned before [BigInt(value)] is
    evaluated. *)
Definition setWithdraw (withdrawAddress' : string) (value : BigIntish)
    (overrideWithdrawAddress' : option string) (b : TransactionBatch)
    : TransactionBatch * Res unit :=
  match withdrawAddress b with
  | Some _ => (b, Thrown WithdrawOnce)
  | None =>
      let b1 :=
        {| chainID := chainID b; tokenAddress := tokenAddress b;
           outputs := outputs b; tokenType := tokenType b;
           withdrawAddress := Some withdrawAddress';
           withdrawTotal := withdrawTotal b;
           overrideWithdrawAddress := overrideWithdrawAddress b |} in
      match BigInt value with
      | None => (b1, Thrown BigIntConversion)
      | Some total =>
          ({| chainID := chainID b1; tokenAddress := tokenAddress b1;
              outputs := outputs b1; tokenType := tokenType b1;
              withdrawAddress := withdrawAddress b1;
              withdrawTotal := total;
              overrideWithdrawAddress := overrideWithdrawAddress' |}, Returned ())
      end
  end.

(** The callback of the [forEach] in [createSatisfyingUTXOGroup]; the
    state is the variables [spendingTree] and [utxos], and the array
    [excludedUTXOIDs] that every call of [findSolutions] is handed. *)
Definition satisfyingCallback (amountRequired : Z)
    (s : option nat * option (list TXO.t) * list string)
    (treeBalance : TreeBalance.t) (tree : nat)
    : option nat * option (list TXO.t) * list string :=
  let '(spendingTree, utxos, excludedUTXOIDs) := s in
  match findSolutions treeBalance amountRequired excludedUTXOIDs with
  | (None, excluded') => (spendingTree, utxos, excluded')
  | (Some solutions, excluded') => (Some tree, Some solutions, excluded')
  end.

Definition createSatisfyingUTXOGroup (treeSortedBalances : list TreeBalance.t)
    (amountRequired : Z) (excludedUTXOIDs : list string) : Res UTXOGroup.t :=
  match forEach (satisfyingCallback amountRequired) treeSortedBalances 0%nat
          (None, None, excludedUTXOIDs) with
  | (Some spendingTree, Some utxos, _) =>
      Returned {| UTXOGroup.utxos := utxos;
                  UTXOGroup.spendingTree := spendingTree;
                  UTXOGroup.amount := calculateTotalSpend utxos |}
  | _ => Thrown ConsolidateBeforeMultiSend
  end.

Definition createSingleSpendingSolutionGroupIfPossible (b : TransactionBatch)
    (treeSortedBalances : list TreeBalance.t) (totalRequired : Z)
    : Res (option SpendingSolutionGroup.t) :=
  tryCatch
    (let excludedUTXOIDs := [] in
     match createSatisfyingUTXOGroup treeSortedBalances totalRequired excludedUTXOIDs with
     | Thrown e => Thrown e
     | Returned g =>
         if bool_decide (UTXOGroup.amount g < totalRequired) then Thrown NotSatisfied
         else Returned (Some {| SpendingSolutionGroup.utxos := UTXOGroup.utxos g;
                                SpendingSolutionGroup.spendingTree := UTXOGroup.spendingTree g;
                                SpendingSolutionGroup.withdrawValue := withdrawTotal b;
                                SpendingSolutionGroup.outputs := outputs b |})
     end)
    (λ err, Returned None).

Definition generateValidSpendingSolutionGroups (b : TransactionBatch)
    (wallet : Wallet) : Res (list SpendingSolutionGroup.t) :=
  let outputTotal := outputTotal (outputs b) in
  let totalRequired := outputTotal + withdrawTotal b in
  match forEachThrowing
          (λ output index,
             if bool_decide (Note.token output ≠ tokenAddress b)
             then Thrown (TokenAddressMismatch index) else Returned ())
          (outputs b) 0%nat with
  | Thrown e => Thrown e
  | Returned _ =>
      match balancesByTree wallet (chainID b)
              !! formatToByteLength (tokenAddress b) 32%nat (Some false) with
      | None =>
          let formattedTokenAddress :=
            "0x" +:+ trim (tokenAddress b) ByteLength_Address in
          Thrown (NoWalletBalance formattedTokenAddress)
      | Some treeSortedBalances =>
          let balance := balanceTotal treeSortedBalances in
          if bool_decide (totalRequired > balance) then Thrown WalletBalanceTooLow
          else
            match createSingleSpendingSolutionGroupIfPossible b treeSortedBalances
                    totalRequired with
            | Thrown e => Thrown e
            | Returned (Some singleSpendingSolutionGroup) =>
                Returned [singleSpendingSolutionGroup]
            | Returned None => Thrown ComplexRequired
            end
      end
  end.

End Class.

End Legacy.

(** ** Sample wallets and batches *)

Module Sample.

Definition token : TokenData :=
  {| tokenType := ERC20;
     tokenAddress := "0x5fbdb2315678afecb367f032d93f642f64180aa3";
     tokenSubID := "" |}.

Definition hash : string := refTokenDataHash token.

Definition note (value : Z) : TransactNote.t :=
  {| TransactNote.tokenData := token;
     TransactNote.tokenHash := hash;
     TransactNote.value := value |}.

Definition utxo (tree position : nat) (value : Z) : TXO.t :=
  {| TXO.tree := tree; TXO.position := position; TXO.note := note value |}.

Definition unshield (value : Z) : UnshieldData.t :=
  {| UnshieldData.toAddress := "0x70997970c51812dc3a010c7d01b50e0d17dc79c8";
     UnshieldData.value := value;
     UnshieldData.tokenData := token |}.

Definition batch (outputs : list TransactNote.t)
    (unshields : gmap string UnshieldData.t) : TransactionBatch :=
  {| adaptID :=
       {| contract := "0x0000000000000000000000000000000000000000";
          parameters :=
            "0x0000000000000000000000000000000000000000000000000000000000000000" |};
     chain := {| chainType := EVM; chainId := 1 |};
     outputs := outputs;
     unshieldDataMap := unshields;
     overallBatchMinGasPrice := 0 |}.

Definition wallet (treeSortedBalances : list TreeBalance.t) : RailgunWallet :=
  {| balancesByTree := λ _, {[ hash := treeSortedBalances ]} |}.

(** Two trees, each of which covers an amount of 10 on its own. *)
Definition tree0 : TreeBalance.t :=
  {| TreeBalance.balance := 10; TreeBalance.utxos := [utxo 0 0 10] |}.
Definition tree1 : TreeBalance.t :=
  {| TreeBalance.balance := 12; TreeBalance.utxos := [utxo 1 0 12] |}.

(** Two trees, neither of which covers an amount of 10 on its own. *)
Definition small0 : TreeBalance.t :=
  {| TreeBalance.balance := 6; TreeBalance.utxos := [utxo 0 0 6] |}.
Definition small1 : TreeBalance.t :=
  {| TreeBalance.balance := 6; TreeBalance.utxos := [utxo 1 0 6] |}.

(** A tree whose balance is spread over three UTXOs. *)
Definition spread : TreeBalance.t :=
  {| TreeBalance.balance := 12;
     TreeBalance.utxos := [utxo 0 0 4; utxo 0 1 4; utxo 0 2 4] |}.

(** A solver that spends a whole tree. *)
Definition wholeTree (treeBalance : TreeBalance.t) (totalRequired : Z)
    : option (list TXO.t) :=
  if bool_decide (TreeBalance.balance treeBalance < totalRequired) then None
  else Some (TreeBalance.utxos treeBalance).

(** Amounts at the end of the 120-bit range. *)
Definition large0 : TreeBalance.t :=
  {| TreeBalance.balance := MAX_UINT120;
     TreeBalance.utxos := [utxo 0 0 MAX_UINT120] |}.
Definition large1 : TreeBalance.t :=
  {| TreeBalance.balance := MAX_UINT120 + 1;
     TreeBalance.utxos := [utxo 1 0 (MAX_UINT120 + 1)] |}.

(** [Object.values], in the order of the keys. *)
Definition values (m : gmap string UnshieldData.t) : list UnshieldData.t :=
  (map_to_list m).*2.

Definition hashZero : string :=
  "0x0000000000000000000000000000000000000000000000000000000000000000".

(** A token of which the wallets above hold nothing. *)
Definition nft : TokenData :=
  {| tokenType := ERC721;
     tokenAddress := "0xe7f1725e7734ce288f8367e1bb143e90bb3f0512";
     tokenSubID := "1" |}.

Definition nftNote : TransactNote.t :=
  {| TransactNote.tokenData := nft;
     TransactNote.tokenHash := refTokenDataHash nft;
     TransactNote.value := 1 |}.

(** The earlier version: values that convert to an integer or do not,
    addresses that are formatted already, and a solver that spends a whole
    tree. *)
Definition legacyBigInt (value : option Z) : option Z := value.

Definition legacyFormat (data : string) (length : nat) (prefix : option bool)
    : string := data.

Definition legacyTrim (data : string) (length : nat) : string := data.

Definition legacySolver (treeBalance : Legacy.TreeBalance.t) (totalRequired : Z)
    (excludedUTXOIDs : list string) : option (list Legacy.TXO.t) * list string :=
  if bool_decide (Legacy.TreeBalance.balance treeBalance < totalRequired)
  then (None, excludedUTXOIDs)
  else (Some (Legacy.TreeBalance.utxos treeBalance), excludedUTXOIDs).

Definition legacyNote (token : string) (value : Z) : Legacy.Note.t :=
  {| Legacy.Note.token := token; Legacy.Note.value := value |}.

Definition legacyTree (tree : nat) (value : Z) : Legacy.TreeBalance.t :=
  {| Legacy.TreeBalance.balance := value;
     Legacy.TreeBalance.utxos :=
       [ {| Legacy.TXO.tree := tree; Legacy.TXO.position := 0;
            Legacy.TXO.note := legacyNote "rail" value |} ] |}.

Definition legacyBatch (outputs : list Legacy.Note.t) (withdrawTotal : Z)
    : Legacy.TransactionBatch :=
  {| Legacy.chainID := 1;
     Legacy.tokenAddress := "rail";
     Legacy.outputs := outputs;
     Legacy.tokenType := Legacy.ERC20;
     Legacy.withdrawAddress := None;
     Legacy.withdrawTotal := withdrawTotal;
     Legacy.overrideWithdrawAddress := None |}.

Definition legacyWallet (treeSortedBalances : list Legacy.TreeBalance.t)
    : Legacy.Wallet :=
  {| Legacy.balancesByTree := λ _, {[ "rail" := treeSortedBalances ]} |}.

End Sample.

(** ** The class, over the helpers it imports *)

Section TransactionBatch.

(** Imported from modules that are not among the sources. *)
Variable getTokenDataHash : TokenData → string.
Variable findExactSolutionsOverTargetValue :
  TreeBalance.t → Z → option (list TXO.t).
Variable isValidFor3Outputs : nat → bool.

Definition addOutput (output : TransactNote.t) : Method unit :=
  b ← this;
  assign {| adaptID := adaptID b; chain := chain b;
            outputs := outputs b ++ [output];
            unshieldDataMap := unshieldDataMap b;
            overallBatchMinGasPrice := overallBatchMinGasPrice b |}.

Definition resetOutputs : Method unit :=
  b ← this;
  assign {| adaptID := adaptID b; chain := chain b;
            outputs := [];
            unshieldDataMap := unshieldDataMap b;
            overallBatchMinGasPrice := overallBatchMinGasPrice b |}.

Definition addUnshieldData (unshieldData : UnshieldData.t) : Method unit :=
  let tokenHash := getTokenDataHash (UnshieldData.tokenData unshieldData) in
  b ← this;
  if bool_decide (is_Some (unshieldDataMap b !! tokenHash)) then
    throw UnshieldOncePerToken
  else if bool_decide (UnshieldData.value unshieldData = 0) then
    throw UnshieldValueZero
  else
    assign {| adaptID := adaptID b; chain := chain b;
              outputs := outputs b;
              unshieldDataMap := <[tokenHash := unshieldData]> (unshieldDataMap b);
              overallBatchMinGasPrice := overallBatchMinGasPrice b |}.

Definition resetUnshieldData : Method unit :=
  b ← this;
  assign {| adaptID := adaptID b; chain := chain b;
            outputs := outputs b;
            unshieldDataMap := ∅;
            overallBatchMinGasPrice := overallBatchMinGasPrice b |}.

Definition unshieldTotal (b : TransactionBatch) (tokenHash : string) : Z :=
  match unshieldDataMap b !! tokenHash with
  | Some unshieldData => UnshieldData.value unshieldData
  | None => 0
  end.

Definition setAdaptID (adaptID' : AdaptID) : Method unit :=
  b ← this;
  assign {| adaptID := adaptID'; chain := chain b;
            outputs := outputs b;
            unshieldDataMap := unshieldDataMap b;
            overallBatchMinGasPrice := overallBatchMinGasPrice b |}.

(** [createSpendingSolutionGroupsForOutput] splices [remainingOutputs]
    and pushes to [excludedUTXOIDs] in place: both arrays are handed
    back next to the groups.  [createSpendingSolutionGroupsForUnshield]
    pushes to [excludedUTXOIDs] alike. *)
Variable createSpendingSolutionGroupsForOutput :
  TokenData → list TreeBalance.t → TransactNote.t →
  list TransactNote.t → list string →
  list SpendingSolutionGroup.t * list TransactNote.t * list string.
Variable createSpendingSolutionGroupsForUnshield :
  TokenData → list TreeBalance.t → Z → list string →
  list SpendingSolutionGroup.t * list string.

(** The callback of the [forEach] in [createSimpleSatisfyingUTXOGroup];
    the state is the pair of the variables [spendingTree] and [utxos]. *)
Definition simpleCallback (amountRequired : Z)
    (s : option nat * option (list TXO.t))
    (treeBalance : TreeBalance.t) (tree : nat)
    : option nat * option (list TXO.t) :=
  match findExactSolutionsOverTargetValue treeBalance amountRequired with
  | None => s
  | Some solutions => (Some tree, Some solutions)
  end.

Definition createSimpleSatisfyingUTXOGroup
    (treeSortedBalances : list TreeBalance.t) (amountRequired : Z)
    : Res UTXOGroup.t :=
  match forEach (simpleCallback amountRequired) treeSortedBalances 0%nat (None, None) with
  | (Some spendingTree, Some utxos) =>
      Returned {| UTXOGroup.utxos := utxos;
                  UTXOGroup.spendingTree := spendingTree;
                  UTXOGroup.amount := calculateTotalSpend utxos |}
  | _ => Thrown NoSpendingSolutions
  end.

Definition createSimpleSpendingSolutionGroupsIfPossible
    (b : TransactionBatch) (tokenData : TokenData) (tokenHash : string)
    (tokenOutputs : list TransactNote.t)
    (treeSortedBalances : list TreeBalance.t) (totalRequired : Z)
    : Res (option SpendingSolutionGroup.t) :=
  tryCatch
    (g ← createSimpleSatisfyingUTXOGroup treeSortedBalances totalRequired;
     if bool_decide (UTXOGroup.amount g < totalRequired) then
       Thrown NotSatisfied
     else if negb (isValidFor3Outputs (length (UTXOGroup.utxos g)))
             && bool_decide (length (outputs b) > 0)%nat
             && bool_decide (unshieldTotal b tokenHash > 0) then
       Thrown Requires3Outputs
     else
       let unshieldValue := unshieldTotal b tokenHash in
       Returned (Some {| SpendingSolutionGroup.utxos := UTXOGroup.utxos g;
                         SpendingSolutionGroup.spendingTree := UTXOGroup.spendingTree g;
                         SpendingSolutionGroup.unshieldValue := unshieldValue;
                         SpendingSolutionGroup.tokenOutputs := tokenOutputs;
                         SpendingSolutionGroup.tokenData := tokenData |}))
    (λ err, Returned None).

(** The [while] loop of [createComplexSatisfyingSpendingSolutionGroups];
    [None] when the iterations allowed by [fuel] are used up. *)
Fixpoint complexLoop (fuel : nat) (tokenData : TokenData)
    (treeSortedBalances : list TreeBalance.t)
    (spendingSolutionGroups : list SpendingSolutionGroup.t)
    (remainingTokenOutputs : list TransactNote.t)
    (excludedUTXOIDs : list string)
    : option (list SpendingSolutionGroup.t * list TransactNote.t * list string) :=
  match remainingTokenOutputs with
  | [] => Some (spendingSolutionGroups, remainingTokenOutputs, excludedUTXOIDs)
  | tokenOutput :: _ =>
      match fuel with
      | O => None
      | S fuel' =>
          match createSpendingSolutionGroupsForOutput tokenData treeSortedBalances
                  tokenOutput remainingTokenOutputs excludedUTXOIDs with
          | ([], remaining', excluded') =>
              Some (spendingSolutionGroups, remaining', excluded')
          | (outputSpendingSolutionGroups, remaining', excluded') =>
              complexLoop fuel' tokenData treeSortedBalances
                (spendingSolutionGroups ++ outputSpendingSolutionGroups)
                remaining' excluded'
          end
      end
  end.

(** What follows the loop, given the arrays it left. *)
Definition complexFinish (b : TransactionBatch) (tokenData : TokenData)
    (treeSortedBalances : list TreeBalance.t)
    (loop : list SpendingSolutionGroup.t * list TransactNote.t * list string)
    : Res (list SpendingSolutionGroup.t) :=
  let '(spendingSolutionGroups, remainingTokenOutputs, excludedUTXOIDs) := loop in
  if bool_decide (length remainingTokenOutputs > 0)%nat then
    Thrown ConsolidateBalance
  else
    let tokenHash := getTokenDataHash tokenData in
    match unshieldDataMap b !! tokenHash with
    | Some _ =>
        match createSpendingSolutionGroupsForUnshield tokenData treeSortedBalances
                (unshieldTotal b tokenHash) excludedUTXOIDs with
        | ([], _) => Thrown ConsolidateBalance
        | (unshieldSpendingSolutionGroups, _) =>
            Returned (spendingSolutionGroups ++ unshieldSpendingSolutionGroups)
        end
    | None => Returned spendingSolutionGroups
    end.

Definition createComplexSatisfyingSpendingSolutionGroups (fuel : nat)
    (b : TransactionBatch) (tokenData : TokenData)
    (tokenOutputs : list TransactNote.t)
    (treeSortedBalances : list TreeBalance.t)
    : option (Res (list SpendingSolutionGroup.t)) :=
  complexFinish b tokenData treeSortedBalances
    <$> complexLoop fuel tokenData treeSortedBalances [] tokenOutputs [].

Definition tokenOutputsOf (b : TransactionBatch) (tokenHash : string)
    : list TransactNote.t :=
  filter (λ output, TransactNote.tokenHash output = tokenHash) (outputs b).

Definition totalRequiredOf (b : TransactionBatch) (tokenHash : string) : Z :=
  outputTotal (tokenOutputsOf b tokenHash) + unshieldTotal b tokenHash.

(** The awaited [wallet.balancesByTree(this.chain)] is the wallet's map
    read at the chain of the batch; [EngineDebug.log] writes to the debug
    sink only and is left out.  [fuel] bounds the iterations of the loop
    of the complex path. *)
Definition generateValidSpendingSolutionGroups (fuel : nat)
    (b : TransactionBatch) (wallet : RailgunWallet) (tokenData : TokenData)
    : option (Res (list SpendingSolutionGroup.t)) :=
  let tokenHash := getTokenDataHash tokenData in
  let tokenOutputs := tokenOutputsOf b tokenHash in
  let totalRequired := outputTotal tokenOutputs + unshieldTotal b tokenHash in
  let balances := balancesByTree wallet (chain b) in
  match balances !! tokenHash with
  | None =>
      match tokenType tokenData with
      | ERC20 => Some (Thrown (NoBalanceERC20 (tokenAddress tokenData)))
      | ERC721 | ERC1155 => Some (Thrown (NoBalanceNFT tokenHash))
      end
  | Some treeSortedBalances =>
      if bool_decide (totalRequired > tokenBalance treeSortedBalances) then
        match tokenType tokenData with
        | ERC20 => Some (Thrown (BalanceTooLowERC20 (tokenAddress tokenData)))
        | ERC721 | ERC1155 => Some (Thrown BalanceTooLowNFT)
        end
      else
        match createSimpleSpendingSolutionGroupsIfPossible b tokenData tokenHash
                tokenOutputs treeSortedBalances totalRequired with
        | Thrown e => Some (Thrown e)
        | Returned (Some singleSpendingSolutionGroup) =>
            Some (Returned [singleSpendingSolutionGroup])
        | Returned None =>
            createComplexSatisfyingSpendingSolutionGroups fuel b tokenData
              tokenOutputs treeSortedBalances
        end
  end.

(** The iterations of the [while] loop as a relation: from the groups
    pushed so far, the remaining outputs and the excluded ids, to the
    three arrays as the loop leaves them. *)
Inductive OutputPass (tokenData : TokenData)
    (treeSortedBalances : list TreeBalance.t)
    : list SpendingSolutionGroup.t → list TransactNote.t → list string →
      list SpendingSolutionGroup.t * list TransactNote.t * list string → Prop :=
  | pass_done groups excluded :
      OutputPass tokenData treeSortedBalances groups [] excluded
        (groups, [], excluded)
  | pass_break groups tokenOutput rest excluded remaining' excluded' :
      createSpendingSolutionGroupsForOutput tokenData treeSortedBalances
        tokenOutput (tokenOutput :: rest) excluded = ([], remaining', excluded') →
      OutputPass tokenData treeSortedBalances groups (tokenOutput :: rest) excluded
        (groups, remaining', excluded')
  | pass_push groups tokenOutput rest excluded g gs remaining' excluded' r :
      createSpendingSolutionGroupsForOutput tokenData treeSortedBalances
        tokenOutput (tokenOutput :: rest) excluded = (g :: gs, remaining', excluded') →
      OutputPass tokenData treeSortedBalances (groups ++ g :: gs) remaining' excluded' r →
      OutputPass tokenData treeSortedBalances groups (tokenOutput :: rest) excluded r.

(** [constructor(chain, overallBatchMinGasPrice = BigInt(0))], with the
    initial values of the fields; [HashZero] is imported from
    [utils/bytes]. *)
Variable HashZero : string.

Definition newTransactionBatch (chain : Chain) (overallBatchMinGasPrice : option Z)
    : TransactionBatch :=
  {| adaptID := {| contract := "0x0000000000000000000000000000000000000000";
                   parameters := HashZero |};
     chain := chain;
     outputs := [];
     unshieldDataMap := ∅;
     overallBatchMinGasPrice := default 0 overallBatchMinGasPrice |}.

(** [Object.values(this.unshieldDataMap)]: the recorded values, in the
    order in which the object enumerates them, which the map of the model
    does not keep. *)
Variable objectValues : gmap string UnshieldData.t → list UnshieldData.t.

(** The callback of the [forEach] in [getOutputTokenDatas]; the state is
    the pair of the arrays [tokenHashes] and [tokenDatas]. *)
Definition tokenDataCallback (s : list string * list TokenData)
    (tokenData : TokenData) (index : nat) : list string * list TokenData :=
  let '(tokenHashes, tokenDatas) := s in
  let tokenHash := getTokenDataHash tokenData in
  if bool_decide (tokenHash ∉ tokenHashes)
  then (tokenHashes ++ [tokenHash], tokenDatas ++ [tokenData])
  else s.

Definition getOutputTokenDatas (b : TransactionBatch) : list TokenData :=
  let outputTokenDatas := TransactNote.tokenData <$> outputs b in
  let unshieldTokenDatas :=
    UnshieldData.tokenData <$> objectValues (unshieldDataMap b) in
  (forEach tokenDataCallback (outputTokenDatas ++ unshieldTokenDatas) 0%nat ([], [])).2.

(** [Promise.all]: the values of all the promises, in their order, when
    every one is fulfilled, and a rejection as soon as one is rejected.
    Which rejection comes first depends on the order in which the
    promises settle; the model takes the first in the order of the array.
    [None] stands for a loop that the fuel did not see the end of. *)
Fixpoint promiseAll {A} (promises : list (option (Res A))) : option (Res (list A)) :=
  match promises with
  | [] => Some (Returned [])
  | promise :: rest =>
      match promise, promiseAll rest with
      | Some (Returned a), Some (Returned values) => Some (Returned (a :: values))
      | Some (Thrown e), Some _ => Some (Thrown e)
      | Some (Returned _), Some (Thrown e) => Some (Thrown e)
      | _, _ => None
      end
  end.

Definition generateValidSpendingSolutionGroupsAllOutputs (fuel : nat)
    (b : TransactionBatch) (wallet : RailgunWallet)
    : option (Res (list SpendingSolutionGroup.t)) :=
  let tokenDatas := getOutputTokenDatas b in
  spendingSolutionGroupsPerToken ←
    promiseAll ((λ tokenData, generateValidSpendingSolutionGroups fuel b wallet tokenData)
                  <$> tokenDatas);
  Some (match spendingSolutionGroupsPerToken with
        | Returned perToken => Returned (concat perToken)
        | Thrown e => Thrown e
        end).

(** The calls that a user of the class makes on a batch. *)
Inductive Call :=
  | CallAddOutput (output : TransactNote.t)
  | CallResetOutputs
  | CallAddUnshieldData (unshieldData : UnshieldData.t)
  | CallResetUnshieldData
  | CallSetAdaptID (adaptID : AdaptID).

Definition call (c : Call) : Method unit :=
  match c with
  | CallAddOutput output => addOutput output
  | CallResetOutputs => resetOutputs
  | CallAddUnshieldData unshieldData => addUnshieldData unshieldData
  | CallResetUnshieldData => resetUnshieldData
  | CallSetAdaptID adaptID => setAdaptID adaptID
  end.

(** A sequence of calls, each made on the batch as the call before left
    it, whether that call returned or threw. *)
Definition runCalls (calls : list Call) (b : TransactionBatch) : TransactionBatch :=
  fold_left (λ b c, (call c b).1) calls b.

(** Every unshield is recorded under the hash of its own token, and is of
    a value other than zero. *)
Definition unshieldsKeyed (b : TransactionBatch) : Prop :=
  ∀ tokenHash unshieldData,
    unshieldDataMap b !! tokenHash = Some unshieldData →
    tokenHash = getTokenDataHash (UnshieldData.tokenData unshieldData)
    ∧ UnshieldData.value unshieldData ≠ 0.

(** ** Sums *)

Lemma fold_left_add_sumZ {A} (f : A → Z) (l : list A) (start : Z) :
  fold_left (λ left right, left + f right) l start = start + sumZ (f <$> l).
Proof.
  revert start. induction l as [|x l IH]; intros start.
  - unfold sumZ. simpl. lia.
  - rewrite fmap_cons. simpl fold_left. rewrite IH. unfold sumZ. simpl. lia.
Qed.

Lemma outputTotal_sumZ tokenOutputs :
  outputTotal tokenOutputs = sumZ (TransactNote.value <$> tokenOutputs).
Proof. unfold outputTotal. rewrite fold_left_add_sumZ. lia. Qed.

Lemma tokenBalance_sumZ treeSortedBalances :
  tokenBalance treeSortedBalances = sumZ (TreeBalance.balance <$> treeSortedBalances).
Proof. unfold tokenBalance. rewrite fold_left_add_sumZ. lia. Qed.

Lemma calculateTotalSpend_sumZ utxos :
  calculateTotalSpend utxos = sumZ (noteValue <$> utxos).
Proof. unfold calculateTotalSpend. rewrite (fold_left_add_sumZ noteValue). lia. Qed.

(** ** The scan over the trees *)

(** The scan keeps the solution of the last tree that has one. *)
Lemma forEach_simpleCallback amountRequired trees index s :
  (forEach (simpleCallback amountRequired) trees index s = s
   ∧ ∀ treeBalance, treeBalance ∈ trees →
       findExactSolutionsOverTargetValue treeBalance amountRequired = None)
  ∨ ∃ k treeBalance solutions,
      forEach (simpleCallback amountRequired) trees index s
        = (Some (index + k)%nat, Some solutions)
      ∧ trees !! k = Some treeBalance
      ∧ findExactSolutionsOverTargetValue treeBalance amountRequired = Some solutions
      ∧ ∀ j later, (k < j)%nat → trees !! j = Some later →
          findExactSolutionsOverTargetValue later amountRequired = None.
Proof.
  revert index s. induction trees as [|tb trees IH]; intros index s; simpl.
  - left. split; [done|]. intros ? H. by apply elem_of_nil in H.
  - destruct (IH (S index) (simpleCallback amountRequired s tb index))
      as [[Heq Hnone]|(k & tb' & sol & Heq & Hk & Hsol & Hlater)].
    + rewrite Heq. unfold simpleCallback.
      destruct (findExactSolutionsOverTargetValue tb amountRequired) as [sol|] eqn:Hs.
      * right. exists 0%nat, tb, sol. rewrite Nat.add_0_r.
        split_and!; [done..|]. intros [|j] later Hj Hl; [lia|].
        simpl in Hl. apply Hnone. by eapply list_elem_of_lookup_2.
      * left. split; [done|]. intros tb' [->|Hin]%elem_of_cons; auto.
    + right. exists (S k), tb', sol. rewrite Heq.
      replace (index + S k)%nat with (S index + k)%nat by lia.
      split_and!; [done..|]. intros [|j] later Hj Hl; [lia|].
      simpl in Hl. eapply Hlater; [|done]. lia.
Qed.

Lemma createSimpleSatisfyingUTXOGroup_Returned trees amountRequired g :
  createSimpleSatisfyingUTXOGroup trees amountRequired = Returned g →
  UTXOGroup.amount g = calculateTotalSpend (UTXOGroup.utxos g)
  ∧ ∃ treeBalance,
      trees !! UTXOGroup.spendingTree g = Some treeBalance
      ∧ findExactSolutionsOverTargetValue treeBalance amountRequired
          = Some (UTXOGroup.utxos g)
      ∧ ∀ j later, (UTXOGroup.spendingTree g < j)%nat → trees !! j = Some later →
          findExactSolutionsOverTargetValue later amountRequired = None.
Proof.
  unfold createSimpleSatisfyingUTXOGroup.
  destruct (forEach_simpleCallback amountRequired trees 0 (None, None))
    as [[Heq _]|(k & tb & sol & Heq & Hk & Hsol & Hlater)]; rewrite Heq.
  - done.
  - intros [= <-]. simpl. split; [done|]. by exists tb.
Qed.

Lemma createSimpleSatisfyingUTXOGroup_Thrown trees amountRequired e :
  createSimpleSatisfyingUTXOGroup trees amountRequired = Thrown e →
  e = NoSpendingSolutions
  ∧ ∀ treeBalance, treeBalance ∈ trees →
      findExactSolutionsOverTargetValue treeBalance amountRequired = None.
Proof.
  unfold createSimpleSatisfyingUTXOGroup.
  destruct (forEach_simpleCallback amountRequired trees 0 (None, None))
    as [[Heq Hnone]|(k & tb & sol & Heq & Hk & Hsol & Hlater)]; rewrite Heq.
  - by intros [= <-].
  - done.
Qed.

(** ** The mutators *)

(** C8: [resetOutputs] clears the outputs and leaves the unshield data
    map, the adapt ID, the chain and the minimum gas price as they were;
    [resetUnshieldData] clears the unshield data map and leaves the
    outputs, the adapt ID, the chain and the minimum gas price as they
    were.  Neither throws. *)
Theorem reset_frame (b : TransactionBatch) :
  (∃ b', resetOutputs b = (b', Returned ())
     ∧ outputs b' = []
     ∧ unshieldDataMap b' = unshieldDataMap b
     ∧ adaptID b' = adaptID b
     ∧ chain b' = chain b
     ∧ overallBatchMinGasPrice b' = overallBatchMinGasPrice b)
  ∧ (∃ b', resetUnshieldData b = (b', Returned ())
     ∧ unshieldDataMap b' = ∅
     ∧ outputs b' = outputs b
     ∧ adaptID b' = adaptID b
     ∧ chain b' = chain b
     ∧ overallBatchMinGasPrice b' = overallBatchMinGasPrice b).
Proof. split; eexists; (split; [reflexivity|]); simpl; done. Qed.

Lemma addUnshieldData_cases (b : TransactionBatch) (unshieldData : UnshieldData.t) :
  let tokenHash := getTokenDataHash (UnshieldData.tokenData unshieldData) in
  (is_Some (unshieldDataMap b !! tokenHash)
     ∧ addUnshieldData unshieldData b = (b, Thrown UnshieldOncePerToken))
  ∨ (unshieldDataMap b !! tokenHash = None ∧ UnshieldData.value unshieldData = 0
     ∧ addUnshieldData unshieldData b = (b, Thrown UnshieldValueZero))
  ∨ (unshieldDataMap b !! tokenHash = None ∧ UnshieldData.value unshieldData ≠ 0
     ∧ addUnshieldData unshieldData b =
         ({| adaptID := adaptID b; chain := chain b; outputs := outputs b;
             unshieldDataMap := <[tokenHash := unshieldData]> (unshieldDataMap b);
             overallBatchMinGasPrice := overallBatchMinGasPrice b |},
          Returned ())).
Proof.
  intros tokenHash. unfold addUnshieldData, mbind, Method_bind, this. fold tokenHash.
  destruct (unshieldDataMap b !! tokenHash) as [old|] eqn:Hlook.
  - left. split; [by eexists|]. rewrite bool_decide_eq_true_2 by (by eexists). done.
  - right. rewrite bool_decide_eq_false_2 by (by intros [? ?]).
    destruct (decide (UnshieldData.value unshieldData = 0)) as [Hz|Hnz].
    + left. by rewrite bool_decide_eq_true_2.
    + right. by rewrite bool_decide_eq_false_2.
Qed.

(** C6: [addUnshieldData] throws exactly when an unshield is already
    recorded under the token hash of the data or the value of the data
    is zero; otherwise it returns with the data recorded under that
    token hash, and nothing else changed. *)
Theorem addUnshieldData_throws_iff (b : TransactionBatch) (unshieldData : UnshieldData.t) :
  let tokenHash := getTokenDataHash (UnshieldData.tokenData unshieldData) in
  let rejected :=
    is_Some (unshieldDataMap b !! tokenHash) ∨ UnshieldData.value unshieldData = 0 in
  ((∃ e, (addUnshieldData unshieldData b).2 = Thrown e) ↔ rejected)
  ∧ (¬ rejected →
     ∃ b', addUnshieldData unshieldData b = (b', Returned ())
       ∧ unshieldDataMap b' = <[tokenHash := unshieldData]> (unshieldDataMap b)
       ∧ unshieldDataMap b' !! tokenHash = Some unshieldData
       ∧ outputs b' = outputs b
       ∧ adaptID b' = adaptID b
       ∧ chain b' = chain b
       ∧ overallBatchMinGasPrice b' = overallBatchMinGasPrice b).
Proof.
  intros tokenHash rejected. subst rejected.
  destruct (addUnshieldData_cases b unshieldData)
    as [[Hsome Heq]|[(Hnone & Hz & Heq)|(Hnone & Hnz & Heq)]];
    fold tokenHash in Hsome || fold tokenHash in Hnone; rewrite Heq; simpl.
  - split; [split; [by left|by eexists]|]. intros []. by left.
  - split; [split; [by right|by eexists]|]. intros []. by right.
  - split.
    + split; [by intros [? ?]|]. intros [[? Hs]|?]; [|done].
      rewrite Hnone in Hs. done.
    + intros _. eexists. split; [reflexivity|]. simpl.
      split_and!; try done. apply lookup_insert_eq.
Qed.

(** C9: a call of [addUnshieldData] that throws leaves the batch, the
    unshield data map included, as it was before the call. *)
Theorem addUnshieldData_atomic (b : TransactionBatch) (unshieldData : UnshieldData.t)
    (e : Error) :
  (addUnshieldData unshieldData b).2 = Thrown e →
  (addUnshieldData unshieldData b).1 = b.
Proof.
  destruct (addUnshieldData_cases b unshieldData)
    as [[_ Heq]|[(_ & _ & Heq)|(_ & _ & Heq)]]; rewrite Heq; simpl; done.
Qed.

(** ** The simple path *)

Lemma unshieldTotal_lookup b tokenHash :
  unshieldTotal b tokenHash
    = from_option UnshieldData.value 0 (unshieldDataMap b !! tokenHash).
Proof. unfold unshieldTotal. by destruct (unshieldDataMap b !! tokenHash). Qed.

(** The three outcomes of the body of the [try] block. *)
Lemma createSimple_cases b tokenData tokenHash tokenOutputs trees totalRequired :
  (createSimpleSpendingSolutionGroupsIfPossible b tokenData tokenHash tokenOutputs
     trees totalRequired = Returned None
   ∧ (createSimpleSatisfyingUTXOGroup trees totalRequired = Thrown NoSpendingSolutions
      ∨ ∃ g, createSimpleSatisfyingUTXOGroup trees totalRequired = Returned g
          ∧ (UTXOGroup.amount g < totalRequired
             ∨ (isValidFor3Outputs (length (UTXOGroup.utxos g)) = false
                ∧ (length (outputs b) > 0)%nat
                ∧ unshieldTotal b tokenHash > 0))))
  ∨ ∃ g, createSimpleSatisfyingUTXOGroup trees totalRequired = Returned g
      ∧ ¬ UTXOGroup.amount g < totalRequired
      ∧ (isValidFor3Outputs (length (UTXOGroup.utxos g)) = true
         ∨ outputs b = [] ∨ ¬ unshieldTotal b tokenHash > 0)
      ∧ createSimpleSpendingSolutionGroupsIfPossible b tokenData tokenHash
          tokenOutputs trees totalRequired
        = Returned (Some
            {| SpendingSolutionGroup.utxos := UTXOGroup.utxos g;
               SpendingSolutionGroup.spendingTree := UTXOGroup.spendingTree g;
               SpendingSolutionGroup.unshieldValue := unshieldTotal b tokenHash;
               SpendingSolutionGroup.tokenOutputs := tokenOutputs;
               SpendingSolutionGroup.tokenData := tokenData |}).
Proof.
  unfold createSimpleSpendingSolutionGroupsIfPossible.
  destruct (createSimpleSatisfyingUTXOGroup trees totalRequired) as [g|e] eqn:Hg.
  - unfold mbind, Res_bind, tryCatch.
    case_bool_decide as Hamount.
    { left. split; [done|]. right. exists g. split; [done|]. by left. }
    destruct (isValidFor3Outputs (length (UTXOGroup.utxos g))) eqn:Hvalid; simpl.
    { right. exists g. split_and!; [done..|by left|done]. }
    case_bool_decide as Hlen; simpl.
    2:{ right. exists g. split_and!; [done..| |done]. right. left.
        destruct (outputs b); [done|]. simpl in Hlen. lia. }
    case_bool_decide as Hunshield.
    + left. split; [done|]. right. exists g. split; [done|]. by right.
    + right. exists g. split_and!; [done..| |done]. by right; right.
  - left. apply createSimpleSatisfyingUTXOGroup_Thrown in Hg as [-> _].
    split; [done|by left].
Qed.

(** C4: when the batch holds at least one output and a nonzero unshield
    (of an unsigned amount) for the token, a candidate UTXO group whose
    number of inputs [isValidFor3Outputs] refuses makes no spending
    solution group: the simple path answers [undefined]. *)
Theorem simple_group_rejected_for_3_outputs
    b tokenData tokenHash tokenOutputs trees totalRequired
    (candidate : UTXOGroup.t) (unshieldData : UnshieldData.t) :
  createSimpleSatisfyingUTXOGroup trees totalRequired = Returned candidate →
  outputs b ≠ [] →
  unshieldDataMap b !! tokenHash = Some unshieldData →
  0 ≤ UnshieldData.value unshieldData →
  UnshieldData.value unshieldData ≠ 0 →
  isValidFor3Outputs (length (UTXOGroup.utxos candidate)) = false →
  createSimpleSpendingSolutionGroupsIfPossible b tokenData tokenHash tokenOutputs
    trees totalRequired = Returned None.
Proof.
  intros Hg Hout Hlook Hpos Hnz Hinvalid.
  destruct (createSimple_cases b tokenData tokenHash tokenOutputs trees totalRequired)
    as [[Heq _]|(g & Hg' & _ & Hok & _)]; [done|].
  rewrite Hg in Hg'. injection Hg' as <-.
  destruct Hok as [Hvalid|[Hnil|Hzero]].
  - congruence.
  - done.
  - rewrite unshieldTotal_lookup, Hlook in Hzero. simpl in Hzero. lia.
Qed.

(** What the simple path selects comes out of the balance it was given. *)
Hypothesis findExactSolutionsOverTargetValue_subset :
  ∀ treeBalance totalRequired solutions,
    findExactSolutionsOverTargetValue treeBalance totalRequired = Some solutions →
    solutions ⊆ TreeBalance.utxos treeBalance.

(** C2: a group that the simple path returns, called as
    [generateValidSpendingSolutionGroups] calls it (the amount required
    is the total of the token outputs plus the unshield total), holds
    UTXOs whose values sum to at least the sum of the values of its
    token outputs plus its unshield value, and all its UTXOs are among
    those of the one tree that it records as its spending tree. *)
Theorem simple_group_invariant b tokenData tokenHash tokenOutputs trees
    (group : SpendingSolutionGroup.t) :
  createSimpleSpendingSolutionGroupsIfPossible b tokenData tokenHash tokenOutputs
    trees (outputTotal tokenOutputs + unshieldTotal b tokenHash)
    = Returned (Some group) →
  sumZ (TransactNote.value <$> SpendingSolutionGroup.tokenOutputs group)
    + SpendingSolutionGroup.unshieldValue group
    ≤ sumZ (noteValue <$> SpendingSolutionGroup.utxos group)
  ∧ ∃ treeBalance,
      trees !! SpendingSolutionGroup.spendingTree group = Some treeBalance
      ∧ SpendingSolutionGroup.utxos group ⊆ TreeBalance.utxos treeBalance.
Proof.
  intros Hgroup.
  destruct (createSimple_cases b tokenData tokenHash tokenOutputs trees
              (outputTotal tokenOutputs + unshieldTotal b tokenHash))
    as [[Heq _]|(g & Hg & Hamount & _ & Heq)]; rewrite Heq in Hgroup; [done|].
  injection Hgroup as <-. simpl.
  apply createSimpleSatisfyingUTXOGroup_Returned in Hg
    as (Hsum & tb & Htree & Hsol & _).
  rewrite Hsum, calculateTotalSpend_sumZ, outputTotal_sumZ in Hamount.
  split; [lia|]. exists tb. split; [done|].
  by eapply findExactSolutionsOverTargetValue_subset.
Qed.

(** ** Generating the groups of a token *)

(** C7, as the code has it: the total of the token outputs and the total
    of the per-tree balances are the exact sums of the amounts, in
    integers of unbounded precision, whatever the size of the amounts;
    no addition is checked against the 120-bit range. *)
Theorem sums_are_exact (b : TransactionBatch) (tokenHash : string)
    (treeSortedBalances : list TreeBalance.t) :
  outputTotal (tokenOutputsOf b tokenHash)
    = sumZ (TransactNote.value <$>
              filter (λ output, TransactNote.tokenHash output = tokenHash) (outputs b))
  ∧ tokenBalance treeSortedBalances
    = sumZ (TreeBalance.balance <$> treeSortedBalances)
  ∧ totalRequiredOf b tokenHash
    = sumZ (TransactNote.value <$>
              filter (λ output, TransactNote.tokenHash output = tokenHash) (outputs b))
      + from_option UnshieldData.value 0 (unshieldDataMap b !! tokenHash).
Proof.
  unfold totalRequiredOf.
  rewrite outputTotal_sumZ, tokenBalance_sumZ, unshieldTotal_lookup. done.
Qed.

(** C3: the amount required for a token is the sum of the values of the
    outputs of that token plus the unshield value of that token; when
    the wallet has balances for the token and their sum over all trees
    is strictly below the amount required, the balance-too-low error
    of the token type is thrown, and no groups are returned. *)
Theorem generateValid_balance_too_low (fuel : nat) (b : TransactionBatch)
    (wallet : RailgunWallet) (tokenData : TokenData)
    (treeSortedBalances : list TreeBalance.t) :
  let tokenHash := getTokenDataHash tokenData in
  let totalRequired :=
    sumZ (TransactNote.value <$>
            filter (λ output, TransactNote.tokenHash output = tokenHash) (outputs b))
    + from_option UnshieldData.value 0 (unshieldDataMap b !! tokenHash) in
  balancesByTree wallet (chain b) !! tokenHash = Some treeSortedBalances →
  sumZ (TreeBalance.balance <$> treeSortedBalances) < totalRequired →
  generateValidSpendingSolutionGroups fuel b wallet tokenData
    = Some (Thrown match tokenType tokenData with
                   | ERC20 => BalanceTooLowERC20 (tokenAddress tokenData)
                   | ERC721 | ERC1155 => BalanceTooLowNFT
                   end).
Proof.
  intros tokenHash totalRequired Hbal Hlow. subst totalRequired.
  unfold generateValidSpendingSolutionGroups. fold tokenHash. rewrite Hbal.
  rewrite bool_decide_eq_true_2.
  - by destruct (tokenType tokenData).
  - unfold tokenOutputsOf.
    rewrite outputTotal_sumZ, tokenBalance_sumZ, unshieldTotal_lookup. lia.
Qed.

(** C10: the simple path always returns, a group or [undefined], and
    never throws; and none of the errors raised inside it ever comes out
    of [generateValidSpendingSolutionGroups]. *)
Theorem createSimple_never_throws (b : TransactionBatch) (tokenData : TokenData) :
  (∀ tokenHash tokenOutputs treeSortedBalances totalRequired,
     ∃ result : option SpendingSolutionGroup.t,
       createSimpleSpendingSolutionGroupsIfPossible b tokenData tokenHash
         tokenOutputs treeSortedBalances totalRequired = Returned result)
  ∧ (∀ fuel wallet e,
       generateValidSpendingSolutionGroups fuel b wallet tokenData = Some (Thrown e) →
       e ≠ NoSpendingSolutions ∧ e ≠ NotSatisfied ∧ e ≠ Requires3Outputs).
Proof.
  assert (Hret : ∀ tokenHash tokenOutputs trees totalRequired,
    ∃ result, createSimpleSpendingSolutionGroupsIfPossible b tokenData tokenHash
                tokenOutputs trees totalRequired = Returned result).
  { intros tokenHash tokenOutputs trees totalRequired.
    destruct (createSimple_cases b tokenData tokenHash tokenOutputs trees totalRequired)
      as [[Heq _]|(g & _ & _ & _ & Heq)]; rewrite Heq; by eexists. }
  split; [exact Hret|].
  intros fuel wallet e. unfold generateValidSpendingSolutionGroups.
  set (tokenHash := getTokenDataHash tokenData).
  destruct (balancesByTree wallet (chain b) !! tokenHash) as [trees|].
  2:{ destruct (tokenType tokenData); intros [= <-]; done. }
  case_bool_decide.
  { destruct (tokenType tokenData); intros [= <-]; done. }
  destruct (Hret tokenHash (tokenOutputsOf b tokenHash) trees
              (outputTotal (tokenOutputsOf b tokenHash) + unshieldTotal b tokenHash))
    as [[g|] ->]; [done|].
  unfold createComplexSatisfyingSpendingSolutionGroups.
  destruct (complexLoop _ _ _ _ _ _) as [[[groups remaining] excluded]|]; [|done].
  simpl. case_bool_decide; [intros [= <-]; done|]. fold tokenHash.
  destruct (unshieldDataMap b !! tokenHash); [|done].
  destruct (createSpendingSolutionGroupsForUnshield _ _ _ _) as [[|? ?] ?];
    [intros [= <-]; done|done].
Qed.

(** ** The complex path *)

Lemma complexLoop_OutputPass fuel tokenData trees groups remaining excluded r :
  complexLoop fuel tokenData trees groups remaining excluded = Some r →
  OutputPass tokenData trees groups remaining excluded r.
Proof.
  revert groups remaining excluded.
  induction fuel as [|fuel IH]; intros groups [|tokenOutput rest] excluded; simpl.
  - intros [= <-]. constructor.
  - done.
  - intros [= <-]. constructor.
  - destruct (createSpendingSolutionGroupsForOutput tokenData trees tokenOutput
                (tokenOutput :: rest) excluded) as [[[|g gs] remaining'] excluded'] eqn:Hcall.
    + intros [= <-]. by constructor.
    + intros Hloop. eapply pass_push; [done|]. by apply IH.
Qed.

(** Every call of the output pass that makes groups brings the remaining
    outputs closer to empty, by some measure. *)
Variable measure : list TransactNote.t → nat.
Hypothesis createSpendingSolutionGroupsForOutput_progress :
  ∀ tokenData trees tokenOutput rest excluded g gs remaining' excluded',
    createSpendingSolutionGroupsForOutput tokenData trees tokenOutput
      (tokenOutput :: rest) excluded = (g :: gs, remaining', excluded') →
    (measure remaining' < measure (tokenOutput :: rest))%nat.

Lemma complexLoop_terminates fuel tokenData trees groups remaining excluded :
  (measure remaining < fuel)%nat →
  is_Some (complexLoop fuel tokenData trees groups remaining excluded).
Proof.
  revert groups remaining excluded.
  induction fuel as [|fuel IH]; intros groups [|tokenOutput rest] excluded Hfuel; simpl;
    try (by eexists); try lia.
  destruct (createSpendingSolutionGroupsForOutput tokenData trees tokenOutput
              (tokenOutput :: rest) excluded) as [[[|g gs] remaining'] excluded'] eqn:Hcall.
  - by eexists.
  - apply IH. apply createSpendingSolutionGroupsForOutput_progress in Hcall. lia.
Qed.

(** C5: for a token whose balances suffice and to which the simple path
    answers [undefined], the complex path runs: the output pass is
    called on the first remaining output, again and again, each call
    handed the remaining outputs and the excluded ids as the call before
    left them, until no output remains or a call makes no groups.  If an
    output remains, the consolidate-balance error is thrown.  Otherwise,
    with an unshield recorded for the token, the unshield pass is called
    with the unshield total and the excluded ids of the output pass: if
    it makes no groups the consolidate-balance error is thrown, else the
    groups of both passes are returned.  With no unshield recorded, the
    groups of the output pass are returned. *)
Theorem complex_fallback (fuel : nat) (b : TransactionBatch)
    (wallet : RailgunWallet) (tokenData : TokenData)
    (treeSortedBalances : list TreeBalance.t) :
  let tokenHash := getTokenDataHash tokenData in
  let tokenOutputs := tokenOutputsOf b tokenHash in
  balancesByTree wallet (chain b) !! tokenHash = Some treeSortedBalances →
  totalRequiredOf b tokenHash ≤ tokenBalance treeSortedBalances →
  createSimpleSpendingSolutionGroupsIfPossible b tokenData tokenHash tokenOutputs
    treeSortedBalances (totalRequiredOf b tokenHash) = Returned None →
  (measure tokenOutputs < fuel)%nat →
  ∃ groups remaining excluded,
    OutputPass tokenData treeSortedBalances [] tokenOutputs []
      (groups, remaining, excluded)
    ∧ generateValidSpendingSolutionGroups fuel b wallet tokenData
      = Some match remaining with
             | _ :: _ => Thrown ConsolidateBalance
             | [] =>
                 match unshieldDataMap b !! tokenHash with
                 | None => Returned groups
                 | Some _ =>
                     match (createSpendingSolutionGroupsForUnshield tokenData
                              treeSortedBalances (unshieldTotal b tokenHash)
                              excluded).1 with
                     | [] => Thrown ConsolidateBalance
                     | unshieldGroups => Returned (groups ++ unshieldGroups)
                     end
                 end
             end.
Proof.
  intros tokenHash tokenOutputs Hbal Henough Hsimple Hfuel.
  destruct (complexLoop_terminates fuel tokenData treeSortedBalances [] tokenOutputs []
              Hfuel) as [[[groups remaining] excluded] Hloop].
  exists groups, remaining, excluded.
  split; [by apply complexLoop_OutputPass in Hloop|].
  unfold generateValidSpendingSolutionGroups. fold tokenHash. rewrite Hbal.
  fold tokenOutputs. unfold totalRequiredOf in Henough, Hsimple.
  fold tokenOutputs in Henough, Hsimple.
  rewrite bool_decide_eq_false_2 by lia. rewrite Hsimple.
  unfold createComplexSatisfyingSpendingSolutionGroups. rewrite Hloop.
  unfold fmap, option_fmap, option_map, complexFinish. f_equal.
  destruct remaining as [|o rest].
  - rewrite bool_decide_eq_false_2 by (simpl; lia). fold tokenHash.
    destruct (unshieldDataMap b !! tokenHash); [|done].
    by destruct (createSpendingSolutionGroupsForUnshield _ _ _ _) as [[|? ?] ?].
  - rewrite bool_decide_eq_true_2 by (simpl; lia). done.
Qed.

(** ** More on the scan over the trees *)

Lemma scan_last_tree trees amountRequired k treeBalance solutions :
  trees !! k = Some treeBalance →
  findExactSolutionsOverTargetValue treeBalance amountRequired = Some solutions →
  (∀ j later, (k < j)%nat → trees !! j = Some later →
     findExactSolutionsOverTargetValue later amountRequired = None) →
  createSimpleSatisfyingUTXOGroup trees amountRequired
    = Returned {| UTXOGroup.utxos := solutions;
                  UTXOGroup.spendingTree := k;
                  UTXOGroup.amount := calculateTotalSpend solutions |}.
Proof.
  intros Hk Hsol Hlater. unfold createSimpleSatisfyingUTXOGroup.
  destruct (forEach_simpleCallback amountRequired trees 0 (None, None))
    as [[_ Hnone]|(k' & tb' & sol' & Heq & Hk' & Hsol' & Hlater')].
  - apply list_elem_of_lookup_2 in Hk. apply Hnone in Hk. congruence.
  - rewrite Heq. simpl.
    destruct (lt_eq_lt_dec k k') as [[Hlt|Heqk]|Hgt].
    + specialize (Hlater k' tb' Hlt Hk'). congruence.
    + subst k'. rewrite Hk in Hk'. injection Hk' as <-.
      rewrite Hsol in Hsol'. by injection Hsol' as <-.
    + specialize (Hlater' k treeBalance Hgt Hk). congruence.
Qed.

(** X1: the scan throws exactly when no tree has a solution for the
    amount (so always on an empty list of trees), and the error is then
    the no-spending-solutions error. *)
Theorem createSimpleSatisfyingUTXOGroup_throws_iff trees amountRequired :
  (createSimpleSatisfyingUTXOGroup trees amountRequired = Thrown NoSpendingSolutions
   ↔ ∀ treeBalance, treeBalance ∈ trees →
       findExactSolutionsOverTargetValue treeBalance amountRequired = None)
  ∧ (∀ e, createSimpleSatisfyingUTXOGroup trees amountRequired = Thrown e →
          e = NoSpendingSolutions)
  ∧ createSimpleSatisfyingUTXOGroup [] amountRequired = Thrown NoSpendingSolutions.
Proof.
  split_and!; [split| |done].
  - intros Hthrown. by apply createSimpleSatisfyingUTXOGroup_Thrown in Hthrown as [_ ?].
  - intros Hnone. unfold createSimpleSatisfyingUTXOGroup.
    destruct (forEach_simpleCallback amountRequired trees 0 (None, None))
      as [[Heq _]|(k & tb & sol & _ & Hk & Hsol & _)].
    + by rewrite Heq.
    + apply list_elem_of_lookup_2 in Hk. apply Hnone in Hk. congruence.
  - intros e Hthrown. by apply createSimpleSatisfyingUTXOGroup_Thrown in Hthrown as [? _].
Qed.

(** X2: the scan returns a group exactly when its UTXOs are the solution
    found in the tree whose number it records, no tree of a higher number
    has a solution, and its amount is the sum of the values of its UTXOs. *)
Theorem createSimpleSatisfyingUTXOGroup_returns_iff trees amountRequired
    (g : UTXOGroup.t) :
  createSimpleSatisfyingUTXOGroup trees amountRequired = Returned g
  ↔ ∃ treeBalance,
      trees !! UTXOGroup.spendingTree g = Some treeBalance
      ∧ findExactSolutionsOverTargetValue treeBalance amountRequired
          = Some (UTXOGroup.utxos g)
      ∧ (∀ j later, (UTXOGroup.spendingTree g < j)%nat → trees !! j = Some later →
           findExactSolutionsOverTargetValue later amountRequired = None)
      ∧ UTXOGroup.amount g = sumZ (noteValue <$> UTXOGroup.utxos g).
Proof.
  split.
  - intros Hret. apply createSimpleSatisfyingUTXOGroup_Returned in Hret
      as (Hsum & tb & Hk & Hsol & Hlater).
    exists tb. rewrite Hsum, calculateTotalSpend_sumZ. done.
  - intros (tb & Hk & Hsol & Hlater & Hsum).
    rewrite (scan_last_tree _ _ _ _ _ Hk Hsol Hlater).
    destruct g as [utxos tree amount]. simpl in *.
    by rewrite calculateTotalSpend_sumZ, Hsum.
Qed.

(** X3: the simple path answers with a group exactly when the scan
    returns a candidate whose amount covers the amount required and,
    unless the batch has no outputs or the token has no unshield above
    zero, whose number of inputs [isValidFor3Outputs] accepts; the group
    holds the UTXOs and the tree of the candidate, all the token outputs
    it was given and the unshield total of the token. *)
Theorem createSimple_returns_group_iff b tokenData tokenHash tokenOutputs trees
    totalRequired (group : SpendingSolutionGroup.t) :
  createSimpleSpendingSolutionGroupsIfPossible b tokenData tokenHash tokenOutputs
    trees totalRequired = Returned (Some group)
  ↔ ∃ candidate,
      createSimpleSatisfyingUTXOGroup trees totalRequired = Returned candidate
      ∧ totalRequired ≤ UTXOGroup.amount candidate
      ∧ (isValidFor3Outputs (length (UTXOGroup.utxos candidate)) = true
         ∨ outputs b = [] ∨ unshieldTotal b tokenHash ≤ 0)
      ∧ group = {| SpendingSolutionGroup.utxos := UTXOGroup.utxos candidate;
                   SpendingSolutionGroup.spendingTree := UTXOGroup.spendingTree candidate;
                   SpendingSolutionGroup.unshieldValue := unshieldTotal b tokenHash;
                   SpendingSolutionGroup.tokenOutputs := tokenOutputs;
                   SpendingSolutionGroup.tokenData := tokenData |}.
Proof.
  destruct (createSimple_cases b tokenData tokenHash tokenOutputs trees totalRequired)
    as [[Heq Hwhy]|(g & Hg & Hamount & Hok & Heq)]; rewrite Heq.
  - split; [done|]. intros (c & Hc & Hcover & Hvalid & _).
    destruct Hwhy as [Hthrown|(g & Hg & Hbad)]; [congruence|].
    rewrite Hc in Hg. injection Hg as <-.
    destruct Hbad as [Hlow|(Hinvalid & Hlen & Hunshield)]; [lia|].
    destruct Hvalid as [Hvalid|[Hnil|Hzero]]; [congruence| |lia].
    rewrite Hnil in Hlen. simpl in Hlen. lia.
  - split.
    + intros [= <-]. exists g. split_and!; [done|lia| |done].
      destruct Hok as [?|[?|?]]; [by left|by right; left|right; right; lia].
    + intros (c & Hc & _ & _ & ->). rewrite Hg in Hc. by injection Hc as <-.
Qed.

(** ** More on generating the groups of a token *)

(** X4: a token for which the wallet has no balances throws the
    no-balance error of its type, whatever the batch requires; and every
    error that comes out is the no-balance error (no balances for the
    token), the balance-too-low error (balances below the amount
    required) or the consolidate-balance error (balances that suffice,
    and a simple path that answered [undefined]). *)
Theorem generateValid_errors (b : TransactionBatch) (wallet : RailgunWallet)
    (tokenData : TokenData) :
  let tokenHash := getTokenDataHash tokenData in
  let balances := balancesByTree wallet (chain b) in
  let noBalance := match tokenType tokenData with
                   | ERC20 => NoBalanceERC20 (tokenAddress tokenData)
                   | ERC721 | ERC1155 => NoBalanceNFT tokenHash
                   end in
  let tooLow := match tokenType tokenData with
                | ERC20 => BalanceTooLowERC20 (tokenAddress tokenData)
                | ERC721 | ERC1155 => BalanceTooLowNFT
                end in
  (balances !! tokenHash = None →
   ∀ fuel, generateValidSpendingSolutionGroups fuel b wallet tokenData
           = Some (Thrown noBalance))
  ∧ (∀ fuel e,
       generateValidSpendingSolutionGroups fuel b wallet tokenData = Some (Thrown e) →
       (balances !! tokenHash = None ∧ e = noBalance)
       ∨ (∃ trees, balances !! tokenHash = Some trees
            ∧ tokenBalance trees < totalRequiredOf b tokenHash ∧ e = tooLow)
       ∨ (∃ trees, balances !! tokenHash = Some trees
            ∧ totalRequiredOf b tokenHash ≤ tokenBalance trees
            ∧ createSimpleSpendingSolutionGroupsIfPossible b tokenData tokenHash
                (tokenOutputsOf b tokenHash) trees (totalRequiredOf b tokenHash)
              = Returned None
            ∧ e = ConsolidateBalance)).
Proof.
  intros tokenHash balances noBalance tooLow. subst balances noBalance tooLow.
  unfold generateValidSpendingSolutionGroups, totalRequiredOf. fold tokenHash. split.
  - intros -> fuel. by destruct (tokenType tokenData).
  - intros fuel e.
    destruct (balancesByTree wallet (chain b) !! tokenHash) as [trees|].
    2:{ intros He. left. split; [done|].
        destruct (tokenType tokenData); by injection He as <-. }
    case_bool_decide as Hlow.
    { intros He. right. left. exists trees. split_and!; [done|lia|].
      destruct (tokenType tokenData); by injection He as <-. }
    destruct (createSimpleSpendingSolutionGroupsIfPossible _ _ _ _ _ _)
      as [[g|]|e'] eqn:Hsimple.
    + done.
    + intros He. right. right. exists trees. split_and!; [done|lia|done|].
      unfold createComplexSatisfyingSpendingSolutionGroups in He.
      destruct (complexLoop _ _ _ _ _ _) as [[[groups remaining] excluded]|]; [|done].
      simpl in He. case_bool_decide; [by injection He as <-|]. fold tokenHash in He.
      destruct (unshieldDataMap b !! tokenHash); [|done].
      destruct (createSpendingSolutionGroupsForUnshield _ _ _ _) as [[|? ?] ?];
        [by injection He as <-|done].
    + exfalso.
      destruct (createSimple_cases b tokenData tokenHash (tokenOutputsOf b tokenHash)
                  trees (outputTotal (tokenOutputsOf b tokenHash)
                         + unshieldTotal b tokenHash))
        as [[Heq _]|(g & _ & _ & _ & Heq)]; congruence.
Qed.

(** X5: when the balances of the token suffice, and the tree of the
    highest number that has a solution for the amount required has one
    that covers it and whose number of inputs is accepted (or the batch has
    no outputs, or the token no unshield), the groups generated are one
    group: the UTXOs of that solution, that tree, all the outputs of the
    token and the unshield total of the token. *)
Theorem generateValid_single_group (fuel : nat) (b : TransactionBatch)
    (wallet : RailgunWallet) (tokenData : TokenData) (trees : list TreeBalance.t)
    (k : nat) (treeBalance : TreeBalance.t) (solutions : list TXO.t) :
  let tokenHash := getTokenDataHash tokenData in
  let totalRequired :=
    sumZ (TransactNote.value <$>
            filter (λ output, TransactNote.tokenHash output = tokenHash) (outputs b))
    + from_option UnshieldData.value 0 (unshieldDataMap b !! tokenHash) in
  balancesByTree wallet (chain b) !! tokenHash = Some trees →
  totalRequired ≤ sumZ (TreeBalance.balance <$> trees) →
  trees !! k = Some treeBalance →
  findExactSolutionsOverTargetValue treeBalance totalRequired = Some solutions →
  (∀ j later, (k < j)%nat → trees !! j = Some later →
     findExactSolutionsOverTargetValue later totalRequired = None) →
  totalRequired ≤ sumZ (noteValue <$> solutions) →
  isValidFor3Outputs (length solutions) = true ∨ outputs b = []
    ∨ unshieldDataMap b !! tokenHash = None →
  generateValidSpendingSolutionGroups fuel b wallet tokenData
    = Some (Returned
        [ {| SpendingSolutionGroup.utxos := solutions;
             SpendingSolutionGroup.spendingTree := k;
             SpendingSolutionGroup.unshieldValue :=
               from_option UnshieldData.value 0 (unshieldDataMap b !! tokenHash);
             SpendingSolutionGroup.tokenOutputs :=
               filter (λ output, TransactNote.tokenHash output = tokenHash) (outputs b);
             SpendingSolutionGroup.tokenData := tokenData |} ]).
Proof.
  intros tokenHash totalRequired Hbal Henough Hk Hsol Hlater Hcover Hok.
  unfold generateValidSpendingSolutionGroups. fold tokenHash. rewrite Hbal.
  unfold tokenOutputsOf.
  rewrite outputTotal_sumZ, tokenBalance_sumZ, unshieldTotal_lookup.
  fold totalRequired. rewrite bool_decide_eq_false_2 by lia.
  pose proof (scan_last_tree trees totalRequired k treeBalance solutions Hk Hsol Hlater)
    as Hscan.
  destruct (createSimple_cases b tokenData tokenHash
              (filter (λ output, TransactNote.tokenHash output = tokenHash) (outputs b))
              trees totalRequired)
    as [[_ Hwhy]|(g & Hg & _ & _ & Heq)].
  - exfalso. destruct Hwhy as [Hthrown|(g & Hg & Hbad)]; [congruence|].
    rewrite Hscan in Hg. injection Hg as <-. simpl in Hbad.
    rewrite calculateTotalSpend_sumZ in Hbad.
    destruct Hbad as [Hlow|(Hinvalid & Hlen & Hunshield)]; [lia|].
    destruct Hok as [Hvalid|[Hnil|Hnone]]; [congruence| |].
    + rewrite Hnil in Hlen. simpl in Hlen. lia.
    + rewrite unshieldTotal_lookup, Hnone in Hunshield. simpl in Hunshield. lia.
  - rewrite Heq. rewrite Hscan in Hg. injection Hg as <-. simpl.
    by rewrite unshieldTotal_lookup.
Qed.

(** X6: for a token that has an unshield recorded, the groups returned
    are never an empty list. *)
Theorem generateValid_unshield_nonempty (fuel : nat) (b : TransactionBatch)
    (wallet : RailgunWallet) (tokenData : TokenData)
    (groups : list SpendingSolutionGroup.t) :
  generateValidSpendingSolutionGroups fuel b wallet tokenData = Some (Returned groups) →
  is_Some (unshieldDataMap b !! getTokenDataHash tokenData) →
  groups ≠ [].
Proof.
  unfold generateValidSpendingSolutionGroups.
  set (tokenHash := getTokenDataHash tokenData). intros Hgen [ud Hud].
  destruct (balancesByTree wallet (chain b) !! tokenHash) as [trees|].
  2:{ by destruct (tokenType tokenData). }
  case_bool_decide; [by destruct (tokenType tokenData)|].
  destruct (createSimpleSpendingSolutionGroupsIfPossible _ _ _ _ _ _) as [[g|]|e'].
  - by injection Hgen as <-.
  - unfold createComplexSatisfyingSpendingSolutionGroups in Hgen.
    destruct (complexLoop _ _ _ _ _ _) as [[[gs remaining] excluded]|]; [|done].
    simpl in Hgen. case_bool_decide; [done|]. fold tokenHash in Hgen.
    rewrite Hud in Hgen.
    destruct (createSpendingSolutionGroupsForUnshield _ _ _ _) as [[|u us] ?]; [done|].
    injection Hgen as <-. intros Happ. apply app_eq_nil in Happ as [_ ?]. done.
  - done.
Qed.

(** ** More on the mutators *)

Lemma outputTotal_app outs1 outs2 :
  outputTotal (outs1 ++ outs2) = outputTotal outs1 + outputTotal outs2.
Proof.
  rewrite !outputTotal_sumZ, fmap_app. unfold sumZ.
  induction (TransactNote.value <$> outs1) as [|x l IH]; simpl; lia.
Qed.

(** X7: [addOutput] always returns; it puts the output last, and raises
    the amount required for the token hash of the output by the value of
    the output, leaving the amount required for every other token hash as
    it was. *)
Theorem addOutput_totalRequired (b : TransactionBatch) (output : TransactNote.t)
    (tokenHash : string) :
  ∃ b', addOutput output b = (b', Returned ())
    ∧ outputs b' = outputs b ++ [output]
    ∧ unshieldDataMap b' = unshieldDataMap b
    ∧ totalRequiredOf b' tokenHash
      = totalRequiredOf b tokenHash
        + (if decide (TransactNote.tokenHash output = tokenHash)
           then TransactNote.value output else 0).
Proof.
  eexists. split; [reflexivity|]. simpl. split_and!; [done..|].
  unfold totalRequiredOf, tokenOutputsOf, unshieldTotal. simpl.
  rewrite filter_app, outputTotal_app, filter_cons, filter_nil.
  case_decide; unfold outputTotal; simpl; lia.
Qed.

(** X8: a call of [addUnshieldData] that returns makes the unshield total
    of the token hash of the data equal to the value of the data, and
    raises the amount required for that token hash by that value; the
    unshield total and the amount required of every other token hash stay
    as they were. *)
Theorem addUnshieldData_totals (b b' : TransactionBatch)
    (unshieldData : UnshieldData.t) (tokenHash : string) :
  addUnshieldData unshieldData b = (b', Returned ()) →
  unshieldTotal b' tokenHash
    = (if decide (tokenHash = getTokenDataHash (UnshieldData.tokenData unshieldData))
       then UnshieldData.value unshieldData else unshieldTotal b tokenHash)
  ∧ totalRequiredOf b' tokenHash
    = totalRequiredOf b tokenHash
      + (if decide (tokenHash = getTokenDataHash (UnshieldData.tokenData unshieldData))
         then UnshieldData.value unshieldData else 0).
Proof.
  intros Hadd.
  destruct (addUnshieldData_cases b unshieldData)
    as [[_ Heq]|[(_ & _ & Heq)|(Hnone & _ & Heq)]]; rewrite Heq in Hadd;
    [done|done|].
  injection Hadd as <-.
  unfold totalRequiredOf, tokenOutputsOf, unshieldTotal. simpl.
  case_decide as Hhash.
  - subst tokenHash. rewrite lookup_insert_eq, Hnone. split; [done|lia].
  - rewrite lookup_insert_ne by done. split; [done|lia].
Qed.


(** X10: after [resetUnshieldData] the unshield total of every token hash
    is zero, and [addUnshieldData] returns again for any data of a value
    other than zero, with that data as the only unshield recorded. *)
Theorem resetUnshieldData_then_add (b : TransactionBatch)
    (unshieldData : UnshieldData.t) :
  UnshieldData.value unshieldData ≠ 0 →
  (∀ tokenHash, unshieldTotal (resetUnshieldData b).1 tokenHash = 0)
  ∧ ∃ b', addUnshieldData unshieldData (resetUnshieldData b).1 = (b', Returned ())
      ∧ unshieldDataMap b'
        = {[ getTokenDataHash (UnshieldData.tokenData unshieldData) := unshieldData ]}
      ∧ outputs b' = outputs b.
Proof.
  intros Hnz. split.
  - intros tokenHash. unfold unshieldTotal. simpl. by rewrite lookup_empty.
  - destruct (addUnshieldData_cases (resetUnshieldData b).1 unshieldData)
      as [[[? Hsome] _]|[(_ & Hz & _)|(_ & _ & Heq)]].
    + simpl in Hsome. by rewrite lookup_empty in Hsome.
    + done.
    + rewrite Heq. eexists. split; [reflexivity|]. simpl. split; [|done].
      apply insert_empty.
Qed.

(** ** Batches made through the methods *)

Lemma call_unshieldsKeyed (c : Call) (b : TransactionBatch) :
  unshieldsKeyed b → unshieldsKeyed (call c b).1.
Proof.
  intros Hb. destruct c as [output| |unshieldData| |adapt]; simpl; try exact Hb.
  - destruct (addUnshieldData_cases b unshieldData)
      as [[_ Heq]|[(_ & _ & Heq)|(_ & Hnz & Heq)]]; rewrite Heq; simpl;
      [exact Hb|exact Hb|].
    intros tokenHash ud. simpl.
    destruct (decide (tokenHash = getTokenDataHash (UnshieldData.tokenData unshieldData)))
      as [->|Hne].
    + rewrite lookup_insert_eq. by intros [= <-].
    + rewrite lookup_insert_ne by done. apply Hb.
  - intros tokenHash ud. simpl. by rewrite lookup_empty.
Qed.

Lemma call_frame (c : Call) (b : TransactionBatch) :
  chain (call c b).1 = chain b
  ∧ overallBatchMinGasPrice (call c b).1 = overallBatchMinGasPrice b.
Proof.
  destruct c as [output| |unshieldData| |adapt]; simpl; try done.
  destruct (addUnshieldData_cases b unshieldData)
    as [[_ Heq]|[(_ & _ & Heq)|(_ & _ & Heq)]]; by rewrite Heq.
Qed.

Lemma newTransactionBatch_unshieldsKeyed chain overallBatchMinGasPrice calls :
  unshieldsKeyed (runCalls calls (newTransactionBatch chain overallBatchMinGasPrice)).
Proof.
  assert (Hrun : ∀ calls b, unshieldsKeyed b → unshieldsKeyed (runCalls calls b)).
  { clear calls. intros calls. unfold runCalls.
    induction calls as [|c calls IH]; intros b Hb; simpl; [done|].
    apply IH. by apply call_unshieldsKeyed. }
  apply Hrun. intros tokenHash ud. simpl. by rewrite lookup_empty.
Qed.

(** X11: in a batch made by the constructor and any sequence of calls of
    [addOutput], [resetOutputs], [addUnshieldData], [resetUnshieldData]
    and [setAdaptID], whether they returned or threw, every unshield is
    recorded under the hash of its own token and has a value other than
    zero; so the unshield total of a token hash is other than zero
    exactly when an unshield is recorded for it. *)
Theorem runCalls_unshieldsKeyed (chain : Chain) (overallBatchMinGasPrice : option Z)
    (calls : list Call) :
  let b := runCalls calls (newTransactionBatch chain overallBatchMinGasPrice) in
  unshieldsKeyed b
  ∧ ∀ tokenHash, unshieldTotal b tokenHash ≠ 0 ↔ is_Some (unshieldDataMap b !! tokenHash).
Proof.
  intros b.
  assert (Hb : unshieldsKeyed b) by apply newTransactionBatch_unshieldsKeyed.
  split; [done|]. intros tokenHash. unfold unshieldTotal.
  destruct (unshieldDataMap b !! tokenHash) as [ud|] eqn:Hlook.
  - split; [by eexists|]. intros _. by apply Hb in Hlook as [_ ?].
  - split; [done|]. by intros [? ?].
Qed.

(** X12: no sequence of calls of the mutators changes the chain or the
    minimum gas price that the constructor was given; the gas price is
    zero when the constructor was given none. *)
Theorem runCalls_chain_gas (chain' : Chain) (overallBatchMinGasPrice' : option Z)
    (calls : list Call) :
  let b := runCalls calls (newTransactionBatch chain' overallBatchMinGasPrice') in
  chain b = chain'
  ∧ overallBatchMinGasPrice b = default 0 overallBatchMinGasPrice'.
Proof.
  assert (Hrun : ∀ calls b, chain (runCalls calls b) = chain b
    ∧ overallBatchMinGasPrice (runCalls calls b) = overallBatchMinGasPrice b).
  { clear calls. intros calls. unfold runCalls.
    induction calls as [|c calls IH]; intros b; simpl; [done|].
    destruct (IH (call c b).1) as [-> ->]. apply call_frame. }
  intros b. subst b. destruct (Hrun calls (newTransactionBatch chain' overallBatchMinGasPrice'))
    as [-> ->]. done.
Qed.

(** ** The tokens of a batch *)

(** The loop of [getOutputTokenDatas] keeps the two arrays in step and
    free of duplicates, and adds the hashes it meets. *)
Lemma forEach_tokenDataCallback (tokenDatas : list TokenData) index
    (hashes : list string) (seen : list TokenData) :
  hashes = getTokenDataHash <$> seen →
  NoDup hashes →
  ∃ hashes' seen',
    forEach tokenDataCallback tokenDatas index (hashes, seen) = (hashes', seen')
    ∧ hashes' = getTokenDataHash <$> seen'
    ∧ NoDup hashes'
    ∧ (∀ h, h ∈ hashes' ↔ h ∈ hashes ∨ h ∈ getTokenDataHash <$> tokenDatas)
    ∧ seen' ⊆ seen ++ tokenDatas.
Proof using getTokenDataHash.
  clear isValidFor3Outputs createSpendingSolutionGroupsForUnshield.
  revert index hashes seen.
  induction tokenDatas as [|tokenData rest IH]; intros index hashes seen Hstep Hnodup.
  - exists hashes, seen. simpl. split_and!; try done.
    + intros h. rewrite elem_of_nil. tauto.
    + by rewrite app_nil_r.
  - simpl. case_bool_decide as Hnew.
    + destruct (IH (S index) (hashes ++ [getTokenDataHash tokenData])
                  (seen ++ [tokenData])) as (hs & sn & Heq & Hhs & Hnd & Hin & Hsub).
      { by rewrite fmap_app, Hstep. }
      { apply NoDup_app. split_and!; [done| |apply NoDup_singleton].
        intros h Hh ->%list_elem_of_singleton. done. }
      exists hs, sn. rewrite Heq. split_and!; try done.
      * intros h. rewrite Hin, elem_of_app, list_elem_of_singleton, ?fmap_cons,
          elem_of_cons. tauto.
      * by rewrite <- app_assoc in Hsub.
    + destruct (IH (S index) hashes seen Hstep Hnodup)
        as (hs & sn & Heq & Hhs & Hnd & Hin & Hsub).
      exists hs, sn. rewrite Heq. split_and!; try done.
      * intros h. rewrite Hin, ?fmap_cons, elem_of_cons. split; [tauto|].
        intros [?|[->|?]]; [tauto| |tauto]. by left.
      * etrans; [exact Hsub|]. intros x [?|?]%elem_of_app; apply elem_of_app;
          [by left|right; by apply elem_of_cons; right].
Qed.

Lemma getOutputTokenDatas_NoDup (b : TransactionBatch) :
  NoDup (getTokenDataHash <$> getOutputTokenDatas b).
Proof using getTokenDataHash objectValues.
  unfold getOutputTokenDatas.
  destruct (forEach_tokenDataCallback
              ((TransactNote.tokenData <$> outputs b)
               ++ (UnshieldData.tokenData <$> objectValues (unshieldDataMap b)))
              0 [] []) as (hs & sn & Heq & Hhs & Hnd & _ & _);
    [done|apply NoDup_nil_2|].
  rewrite Heq. simpl. by rewrite <- Hhs.
Qed.

(** X13: the token datas that [getOutputTokenDatas] returns have hashes
    that differ from one another, and each of them is the token data of an
    output or of a recorded unshield. *)
Theorem getOutputTokenDatas_distinct (b : TransactionBatch) :
  NoDup (getTokenDataHash <$> getOutputTokenDatas b)
  ∧ ∀ tokenData, tokenData ∈ getOutputTokenDatas b →
      tokenData ∈ (TransactNote.tokenData <$> outputs b)
      ∨ tokenData ∈ (UnshieldData.tokenData <$> objectValues (unshieldDataMap b)).
Proof.
  unfold getOutputTokenDatas.
  destruct (forEach_tokenDataCallback
              ((TransactNote.tokenData <$> outputs b)
               ++ (UnshieldData.tokenData <$> objectValues (unshieldDataMap b)))
              0 [] []) as (hs & sn & Heq & Hhs & Hnd & _ & Hsub);
    [done|apply NoDup_nil_2|].
  rewrite Heq. simpl. rewrite <- Hhs. split; [done|].
  intros tokenData Hin. apply Hsub in Hin. simpl in Hin.
  by apply elem_of_app in Hin.
Qed.

(** X14: every output whose token hash is the hash of its token data
    belongs to the outputs of exactly one of the token datas that
    [getOutputTokenDatas] returns: no output is left out, and none is
    counted for two tokens. *)
Theorem outputs_partitioned (b : TransactionBatch) (output : TransactNote.t) :
  output ∈ outputs b →
  TransactNote.tokenHash output = getTokenDataHash (TransactNote.tokenData output) →
  ∃ i tokenData,
    getOutputTokenDatas b !! i = Some tokenData
    ∧ output ∈ tokenOutputsOf b (getTokenDataHash tokenData)
    ∧ ∀ j tokenData',
        getOutputTokenDatas b !! j = Some tokenData' →
        output ∈ tokenOutputsOf b (getTokenDataHash tokenData') →
        j = i.
Proof.
  intros Hin Hhash.
  pose proof (getOutputTokenDatas_NoDup b) as Hnodup.
  assert (Hcover : TransactNote.tokenHash output
                   ∈ getTokenDataHash <$> getOutputTokenDatas b).
  { unfold getOutputTokenDatas.
    destruct (forEach_tokenDataCallback
                ((TransactNote.tokenData <$> outputs b)
                 ++ (UnshieldData.tokenData <$> objectValues (unshieldDataMap b)))
                0 [] []) as (hs & sn & Heq & Hhs & _ & Hall & _);
      [done|apply NoDup_nil_2|].
    rewrite Heq. simpl. rewrite <- Hhs. apply Hall. right.
    rewrite Hhash, fmap_app, elem_of_app. left.
    rewrite <- list_fmap_compose. apply list_elem_of_fmap. by exists output. }
  apply list_elem_of_lookup in Hcover as [i Hi].
  apply list_lookup_fmap_Some in Hi as (tokenData & Htd & Hi).
  exists i, tokenData. split_and!; [done| |].
  - unfold tokenOutputsOf. apply list_elem_of_filter. by rewrite <- Htd.
  - intros j tokenData' Hj Hin'. unfold tokenOutputsOf in Hin'.
    apply list_elem_of_filter in Hin' as [Hsame _].
    eapply NoDup_lookup; [exact Hnodup| |].
    + by rewrite list_lookup_fmap, Hj.
    + rewrite list_lookup_fmap, Hi. simpl. congruence.
Qed.

(** [Object.values] enumerates the values recorded, each once. *)
Hypothesis objectValues_values :
  ∀ m : gmap string UnshieldData.t, objectValues m ≡ₚ (map_to_list m).*2.

(** X15: in a batch made by the constructor and any sequence of calls of
    the mutators, every token hash under which an unshield is recorded is
    the hash of one of the token datas that [getOutputTokenDatas] returns:
    no unshield is left out of the generation. *)
Theorem unshields_covered (chain : Chain) (overallBatchMinGasPrice : option Z)
    (calls : list Call) (tokenHash : string) :
  let b := runCalls calls (newTransactionBatch chain overallBatchMinGasPrice) in
  is_Some (unshieldDataMap b !! tokenHash) →
  ∃ tokenData, tokenData ∈ getOutputTokenDatas b
               ∧ getTokenDataHash tokenData = tokenHash.
Proof.
  intros b [ud Hud].
  pose proof (newTransactionBatch_unshieldsKeyed chain overallBatchMinGasPrice calls)
    as Hkeyed.
  fold b in Hkeyed. destruct (Hkeyed tokenHash ud Hud) as [Hkey _].
  assert (Hcover : tokenHash ∈ getTokenDataHash <$> getOutputTokenDatas b).
  { unfold getOutputTokenDatas.
    destruct (forEach_tokenDataCallback
                ((TransactNote.tokenData <$> outputs b)
                 ++ (UnshieldData.tokenData <$> objectValues (unshieldDataMap b)))
                0 [] []) as (hs & sn & Heq & Hhs & _ & Hall & _);
      [done|apply NoDup_nil_2|].
    rewrite Heq. simpl. rewrite <- Hhs. apply Hall. right.
    rewrite fmap_app, elem_of_app. right.
    rewrite <- list_fmap_compose. apply list_elem_of_fmap. exists ud.
    split; [done|]. rewrite objectValues_values.
    apply list_elem_of_fmap. exists (tokenHash, ud). split; [done|].
    by apply elem_of_map_to_list. }
  apply list_elem_of_fmap in Hcover as (tokenData & Htd & Hin). by exists tokenData.
Qed.

(** ** Generating the groups of all the tokens *)

Lemma promiseAll_Returned {A} (promises : list (option (Res A))) (values : list A) :
  promiseAll promises = Some (Returned values)
  ↔ Forall2 (λ promise value, promise = Some (Returned value)) promises values.
Proof.
  revert values. induction promises as [|promise rest IH]; intros values; simpl.
  - split.
    + intros [= <-]. constructor.
    + by intros ->%Forall2_nil_inv_l.
  - split.
    + destruct promise as [[a|e]|]; destruct (promiseAll rest) as [[vs|e']|];
        try done.
      intros [= <-]. constructor; [done|]. by apply IH.
    + intros (value & values' & -> & Hrest & ->)%Forall2_cons_inv_l.
      apply IH in Hrest. by rewrite Hrest.
Qed.

Lemma promiseAll_Thrown {A} (promises : list (option (Res A))) (e : Error) :
  promiseAll promises = Some (Thrown e) →
  Some (Thrown e) ∈ promises.
Proof.
  induction promises as [|promise rest IH]; simpl; [done|].
  destruct (promiseAll rest) as [[vs|e'']|]; destruct promise as [[a|e']|]; try done.
  - intros [= <-]. apply elem_of_cons. by left.
  - intros [= <-]. apply elem_of_cons. right. by apply IH.
  - intros [= <-]. apply elem_of_cons. by left.
Qed.

Lemma promiseAll_settles {A} (promises : list (option (Res A))) :
  Forall is_Some promises → is_Some (promiseAll promises).
Proof.
  induction 1 as [|promise rest [r ->] _ [r' Hrest]]; simpl; [by eexists|].
  rewrite Hrest. destruct r, r'; by eexists.
Qed.

(** X16: the groups of all the tokens are returned exactly when the
    groups of every token of [getOutputTokenDatas] are returned, and they
    are then the groups of the tokens one after the other, in the order of
    the tokens. *)
Theorem allOutputs_returns_iff (fuel : nat) (b : TransactionBatch)
    (wallet : RailgunWallet) (groups : list SpendingSolutionGroup.t) :
  generateValidSpendingSolutionGroupsAllOutputs fuel b wallet = Some (Returned groups)
  ↔ ∃ perToken,
      Forall2 (λ tokenData tokenGroups,
                 generateValidSpendingSolutionGroups fuel b wallet tokenData
                 = Some (Returned tokenGroups))
        (getOutputTokenDatas b) perToken
      ∧ groups = concat perToken.
Proof.
  unfold generateValidSpendingSolutionGroupsAllOutputs. split.
  - destruct (promiseAll _) as [[perToken|e]|] eqn:Hall; simpl; [|done..].
    intros [= <-]. exists perToken. split; [|done].
    apply promiseAll_Returned in Hall. by apply Forall2_fmap_l in Hall.
  - intros (perToken & Hall & ->).
    assert (Hpromises :
      promiseAll ((λ tokenData, generateValidSpendingSolutionGroups fuel b wallet tokenData)
                    <$> getOutputTokenDatas b) = Some (Returned perToken)).
    { apply promiseAll_Returned, Forall2_fmap_l. exact Hall. }
    by rewrite Hpromises.
Qed.

(** X17: partial results are never returned.  When the generation for
    every token ends and it throws for one of them, the generation for all
    the tokens throws, an error that the generation for one of the tokens
    threw. *)
Theorem allOutputs_all_or_nothing (fuel : nat) (b : TransactionBatch)
    (wallet : RailgunWallet) (failing : TokenData) (e : Error) :
  failing ∈ getOutputTokenDatas b →
  generateValidSpendingSolutionGroups fuel b wallet failing = Some (Thrown e) →
  (∀ tokenData, tokenData ∈ getOutputTokenDatas b →
     is_Some (generateValidSpendingSolutionGroups fuel b wallet tokenData)) →
  ∃ e' tokenData,
    generateValidSpendingSolutionGroupsAllOutputs fuel b wallet = Some (Thrown e')
    ∧ tokenData ∈ getOutputTokenDatas b
    ∧ generateValidSpendingSolutionGroups fuel b wallet tokenData = Some (Thrown e').
Proof.
  intros Hin Hthrown Hends.
  unfold generateValidSpendingSolutionGroupsAllOutputs.
  set (promises := (λ tokenData, generateValidSpendingSolutionGroups fuel b wallet tokenData)
                     <$> getOutputTokenDatas b).
  destruct (promiseAll_settles promises) as [r Hr].
  { apply Forall_fmap, Forall_forall. intros tokenData Htd. by apply Hends. }
  rewrite Hr. simpl. destruct r as [perToken|e'].
  - exfalso. apply promiseAll_Returned in Hr. apply Forall2_fmap_l in Hr.
    apply list_elem_of_lookup in Hin as [i Hi].
    destruct (Forall2_lookup_l _ _ _ _ _ Hr Hi) as (tokenGroups & _ & Hok).
    congruence.
  - apply promiseAll_Thrown in Hr.
    apply list_elem_of_fmap in Hr as (tokenData & Htd & Hin').
    by exists e', tokenData.
Qed.

(** X18: a batch whose outputs and whose unshields have both been reset
    has no tokens, and the groups of all its tokens are an empty list,
    whatever the wallet holds. *)
Theorem allOutputs_after_resets (fuel : nat) (b : TransactionBatch)
    (wallet : RailgunWallet) :
  let cleared := (resetUnshieldData (resetOutputs b).1).1 in
  cleared = (resetOutputs (resetUnshieldData b).1).1
  ∧ getOutputTokenDatas cleared = []
  ∧ generateValidSpendingSolutionGroupsAllOutputs fuel cleared wallet
    = Some (Returned []).
Proof.
  intros cleared.
  assert (Hnone : getOutputTokenDatas cleared = []).
  { unfold getOutputTokenDatas. simpl.
    pose proof (objectValues_values ∅) as Hperm.
    rewrite map_to_list_empty in Hperm. apply Permutation_nil_r in Hperm.
    by rewrite Hperm. }
  split_and!; [done|done|].
  unfold generateValidSpendingSolutionGroupsAllOutputs. by rewrite Hnone.
Qed.

End TransactionBatch.

(** ** The helpers of the solver, as described *)

Lemma refAccumulate_subseteq target sorted taken :
  refAccumulate target sorted taken ⊆ taken ++ sorted.
Proof.
  revert taken. induction sorted as [|utxo rest IH]; intros taken; simpl.
  - by rewrite app_nil_r.
  - case_bool_decide.
    + etrans; [apply IH|]. by rewrite <- app_assoc.
    + set_solver.
Qed.

Lemma refFindExactSolutionsOverTargetValue_subseteq treeBalance totalRequired solutions :
  refFindExactSolutionsOverTargetValue treeBalance totalRequired = Some solutions →
  solutions ⊆ TreeBalance.utxos treeBalance.
Proof.
  unfold refFindExactSolutionsOverTargetValue.
  repeat case_bool_decide; try done.
  destruct (refIsValidNullifierCount _); [|done].
  intros [= <-]. etrans; [apply refAccumulate_subseteq|]. simpl.
  intros utxo Hin. rewrite merge_sort_Permutation in Hin.
  by apply list_elem_of_filter in Hin as [_ ?].
Qed.

Lemma refSliceTree_inv amount mkGroup tree utxos s :
  sliceInv amount s → sliceInv amount (refSliceTree mkGroup tree utxos s).
Proof.
  revert s. induction utxos as [|utxo rest IH]; intros [[groups amountLeft] excluded];
    simpl; [done|].
  intros [Hle Hlt]. simpl in *.
  destruct (bool_decide (amountLeft > 0) && bool_decide (noteValue utxo > 0)
            && bool_decide (refUTXOID utxo ∉ excluded)) eqn:Htake.
  - apply IH. apply andb_prop in Htake as [[_ Hpos%bool_decide_eq_true]%andb_prop _].
    split; simpl; intros; lia.
  - apply IH. by split.
Qed.

Lemma forEach_inv {A S} (P : S → Prop) (f : S → A → nat → S) l index s :
  (∀ s item index, P s → P (f s item index)) → P s → P (forEach f l index s).
Proof.
  intros Hstep. revert index s.
  induction l as [|item rest IH]; intros index s Hs; simpl; auto.
Qed.

Lemma refSlice_inv mkGroup trees amount excluded :
  sliceInv amount (refSlice mkGroup trees amount excluded).
Proof.
  unfold refSlice. apply forEach_inv.
  - intros s treeBalance tree. apply refSliceTree_inv.
  - split; simpl; [lia|done].
Qed.

Lemma refCreateSpendingSolutionGroupsForOutput_progress
    tokenData trees tokenOutput rest excluded g gs remaining' excluded' :
  refCreateSpendingSolutionGroupsForOutput tokenData trees tokenOutput
    (tokenOutput :: rest) excluded = (g :: gs, remaining', excluded') →
  (refMeasure remaining' < refMeasure (tokenOutput :: rest))%nat.
Proof.
  unfold refCreateSpendingSolutionGroupsForOutput.
  match goal with |- context [refSlice ?mk _ _ _] =>
    pose proof (refSlice_inv mk trees (TransactNote.value tokenOutput) excluded) as Hinv;
    destruct (refSlice mk trees (TransactNote.value tokenOutput) excluded)
      as [[groups amountLeft] excluded''] end.
  destruct Hinv as [_ Hlt]. simpl in Hlt.
  destruct groups as [|g' gs']; [done|].
  specialize (Hlt ltac:(done)).
  case_bool_decide; intros [= <- <- <- <-]; simpl; lia.
Qed.

(** ** The earlier version of the class *)

Section LegacyFacts.

Variable BigIntish : Type.
Variable BigInt : BigIntish → option Z.
Variable formatToByteLength : string → nat → option bool → string.
Variable trim : string → nat → string.
Variable ByteLength_Address : nat.
Variable findSolutions :
  Legacy.TreeBalance.t → Z → list string → option (list Legacy.TXO.t) * list string.

Local Abbreviation generateValid :=
  (Legacy.generateValidSpendingSolutionGroups formatToByteLength trim
     ByteLength_Address findSolutions).
Local Abbreviation createSingle :=
  (Legacy.createSingleSpendingSolutionGroupIfPossible findSolutions).
Local Abbreviation setWithdraw := (Legacy.setWithdraw BigIntish BigInt).
Local Abbreviation checkTokens b :=
  (Legacy.forEachThrowing
     (λ output index,
        if bool_decide (Legacy.Note.token output ≠ Legacy.tokenAddress b)
        then Legacy.Thrown (Legacy.TokenAddressMismatch index)
        else Legacy.Returned ())).

Lemma legacy_checkTokens (b : Legacy.TransactionBatch) (outs : list Legacy.Note.t)
    (index : nat) :
  (checkTokens b outs index = Legacy.Returned ()
   ∧ Forall (λ output, Legacy.Note.token output = Legacy.tokenAddress b) outs)
  ∨ ∃ i output,
      checkTokens b outs index = Legacy.Thrown (Legacy.TokenAddressMismatch (index + i))
      ∧ outs !! i = Some output
      ∧ Legacy.Note.token output ≠ Legacy.tokenAddress b
      ∧ ∀ j earlier, (j < i)%nat → outs !! j = Some earlier →
          Legacy.Note.token earlier = Legacy.tokenAddress b.
Proof.
  revert index. induction outs as [|output rest IH]; intros index; simpl.
  - left. split; [done|constructor].
  - case_bool_decide as Hmatch.
    + right. exists 0%nat, output. rewrite Nat.add_0_r. split_and!; [done..|].
      intros j earlier Hj. lia.
    + destruct (IH (S index)) as [[Heq Hall]|(i & o & Heq & Hi & Hne & Hbefore)].
      * left. split; [done|]. by constructor.
      * right. exists (S i), o. rewrite Heq.
        replace (index + S i)%nat with (S index + i)%nat by lia.
        split_and!; [done..|]. intros [|j] earlier Hj Hl.
        -- simpl in Hl. by injection Hl as <-.
        -- simpl in Hl. eapply Hbefore; [|done]. lia.
Qed.

Lemma legacy_createSingle_cases (b : Legacy.TransactionBatch)
    (trees : list Legacy.TreeBalance.t) (totalRequired : Z) :
  createSingle b trees totalRequired = Legacy.Returned None
  ∨ ∃ utxos spendingTree,
      totalRequired ≤ Legacy.calculateTotalSpend utxos
      ∧ createSingle b trees totalRequired
        = Legacy.Returned (Some
            {| Legacy.SpendingSolutionGroup.utxos := utxos;
               Legacy.SpendingSolutionGroup.spendingTree := spendingTree;
               Legacy.SpendingSolutionGroup.withdrawValue := Legacy.withdrawTotal b;
               Legacy.SpendingSolutionGroup.outputs := Legacy.outputs b |}).
Proof.
  unfold Legacy.createSingleSpendingSolutionGroupIfPossible,
    Legacy.createSatisfyingUTXOGroup.
  destruct (forEach _ _ _ _) as [[[tree|] [utxos|]] excluded]; simpl; auto.
  case_bool_decide as Hlow; simpl; auto.
  right. exists utxos, tree. split; [lia|done].
Qed.

(** X19: when the earlier version returns, it returns one group and no
    more: the group holds all the outputs of the batch and the withdraw
    total, the values of its UTXOs sum to at least the sum of the values
    of the outputs plus the withdraw total, and every output of the batch
    is of the token of the batch. *)
Theorem legacy_generateValid_one_group (b : Legacy.TransactionBatch)
    (wallet : Legacy.Wallet) (groups : list Legacy.SpendingSolutionGroup.t) :
  generateValid b wallet = Legacy.Returned groups →
  ∃ group,
    groups = [group]
    ∧ Legacy.SpendingSolutionGroup.outputs group = Legacy.outputs b
    ∧ Legacy.SpendingSolutionGroup.withdrawValue group = Legacy.withdrawTotal b
    ∧ sumZ (Legacy.Note.value <$> Legacy.SpendingSolutionGroup.outputs group)
      + Legacy.SpendingSolutionGroup.withdrawValue group
      ≤ sumZ ((λ utxo, Legacy.Note.value (Legacy.TXO.note utxo))
                <$> Legacy.SpendingSolutionGroup.utxos group)
    ∧ Forall (λ output, Legacy.Note.token output = Legacy.tokenAddress b)
        (Legacy.outputs b).
Proof.
  unfold Legacy.generateValidSpendingSolutionGroups.
  destruct (legacy_checkTokens b (Legacy.outputs b) 0)
    as [[Heq Hall]|(i & o & Heq & _)]; rewrite Heq; [|done].
  destruct (Legacy.balancesByTree wallet (Legacy.chainID b) !! _) as [trees|]; [|done].
  case_bool_decide as Hlow; [done|].
  destruct (legacy_createSingle_cases b trees
              (Legacy.outputTotal (Legacy.outputs b) + Legacy.withdrawTotal b))
    as [Hnone|(utxos & tree & Hcover & Hsome)].
  - by rewrite Hnone.
  - rewrite Hsome. intros [= <-]. eexists. split; [done|]. simpl.
    split_and!; [done..| |done].
    unfold Legacy.calculateTotalSpend, Legacy.outputTotal in Hcover.
    rewrite (fold_left_add_sumZ (λ utxo, Legacy.Note.value (Legacy.TXO.note utxo))),
      (fold_left_add_sumZ Legacy.Note.value) in Hcover. lia.
Qed.

(** X20: when an output of the batch is of another token than the token
    of the batch, the earlier version throws the token-address-mismatch
    error with the index of the first such output, whatever the wallet
    holds. *)
Theorem legacy_token_mismatch_first (b : Legacy.TransactionBatch)
    (wallet : Legacy.Wallet) (i : nat) (output : Legacy.Note.t) :
  Legacy.outputs b !! i = Some output →
  Legacy.Note.token output ≠ Legacy.tokenAddress b →
  (∀ j earlier, (j < i)%nat → Legacy.outputs b !! j = Some earlier →
     Legacy.Note.token earlier = Legacy.tokenAddress b) →
  generateValid b wallet = Legacy.Thrown (Legacy.TokenAddressMismatch i).
Proof.
  intros Hi Hne Hbefore. unfold Legacy.generateValidSpendingSolutionGroups.
  destruct (legacy_checkTokens b (Legacy.outputs b) 0)
    as [[_ Hall]|(i' & o' & Heq & Hi' & Hne' & Hbefore')].
  - rewrite Forall_lookup in Hall. by apply Hall in Hi.
  - rewrite Heq. simpl.
    destruct (lt_eq_lt_dec i i') as [[Hlt|Heqi]|Hgt]; [|by subst i'|].
    + by specialize (Hbefore' i output Hlt Hi).
    + by specialize (Hbefore i' o' Hgt Hi').
Qed.

(** X21: every error of the earlier version is the token-address-mismatch
    error (an output of another token), the no-wallet-balance error (the
    wallet has no balances under the formatted token address), the
    balance-too-low error (balances below the amount required) or the
    complex-group-required error (balances that suffice); the errors
    raised while a single group is sought never come out. *)
Theorem legacy_generateValid_errors (b : Legacy.TransactionBatch)
    (wallet : Legacy.Wallet) (e : Legacy.Error) :
  let balances := Legacy.balancesByTree wallet (Legacy.chainID b) in
  let key := formatToByteLength (Legacy.tokenAddress b) 32%nat (Some false) in
  let totalRequired :=
    sumZ (Legacy.Note.value <$> Legacy.outputs b) + Legacy.withdrawTotal b in
  generateValid b wallet = Legacy.Thrown e →
  (∃ i output, e = Legacy.TokenAddressMismatch i
     ∧ Legacy.outputs b !! i = Some output
     ∧ Legacy.Note.token output ≠ Legacy.tokenAddress b)
  ∨ (balances !! key = None
     ∧ e = Legacy.NoWalletBalance
             ("0x" +:+ trim (Legacy.tokenAddress b) ByteLength_Address))
  ∨ (∃ trees, balances !! key = Some trees
       ∧ sumZ (Legacy.TreeBalance.balance <$> trees) < totalRequired
       ∧ e = Legacy.WalletBalanceTooLow)
  ∨ (∃ trees, balances !! key = Some trees
       ∧ totalRequired ≤ sumZ (Legacy.TreeBalance.balance <$> trees)
       ∧ e = Legacy.ComplexRequired).
Proof.
  intros balances key totalRequired. subst balances key totalRequired.
  unfold Legacy.generateValidSpendingSolutionGroups.
  destruct (legacy_checkTokens b (Legacy.outputs b) 0)
    as [[Heq Hall]|(i & o & Heq & Hi & Hne & _)]; rewrite Heq.
  2:{ intros [= <-]. left. by exists i, o. }
  unfold Legacy.outputTotal, Legacy.balanceTotal.
  destruct (Legacy.balancesByTree wallet (Legacy.chainID b) !! _) as [trees|].
  2:{ intros [= <-]. right. by left. }
  rewrite (fold_left_add_sumZ Legacy.Note.value),
    (fold_left_add_sumZ Legacy.TreeBalance.balance).
  case_bool_decide as Hlow.
  { intros [= <-]. right. right. left. exists trees. split_and!; [done|lia|done]. }
  destruct (legacy_createSingle_cases b trees
              (0 + sumZ (Legacy.Note.value <$> Legacy.outputs b) + Legacy.withdrawTotal b))
    as [Hnone|(utxos & tree & _ & Hsome)].
  - rewrite Hnone. intros [= <-]. right. right. right. exists trees.
    split_and!; [done|lia|done].
  - by rewrite Hsome.
Qed.

(** X22: [setWithdraw] can be called with effect once.  On a batch with no
    withdraw address it records the address first, and only then converts
    the value: when the conversion throws, the address stays recorded and
    the total and the override address stay as they were.  Whether that
    first call returned or threw, every later call throws the
    once-per-batch error and leaves the batch as it is. *)
Theorem legacy_setWithdraw_once (b : Legacy.TransactionBatch)
    (address : string) (value : BigIntish) (override : option string)
    (address' : string) (value' : BigIntish) (override' : option string) :
  Legacy.withdrawAddress b = None →
  let b1 := (setWithdraw address value override b).1 in
  Legacy.withdrawAddress b1 = Some address
  ∧ Legacy.outputs b1 = Legacy.outputs b
  ∧ match BigInt value with
    | Some total =>
        (setWithdraw address value override b).2 = Legacy.Returned ()
        ∧ Legacy.withdrawTotal b1 = total
        ∧ Legacy.overrideWithdrawAddress b1 = override
    | None =>
        (setWithdraw address value override b).2 = Legacy.Thrown Legacy.BigIntConversion
        ∧ Legacy.withdrawTotal b1 = Legacy.withdrawTotal b
        ∧ Legacy.overrideWithdrawAddress b1 = Legacy.overrideWithdrawAddress b
    end
  ∧ setWithdraw address' value' override' b1 = (b1, Legacy.Thrown Legacy.WithdrawOnce).
Proof.
  intros Hnone b1. subst b1. unfold Legacy.setWithdraw. rewrite Hnone.
  destruct (BigInt value) as [total|]; simpl; done.
Qed.

End LegacyFacts.

(** ** The class on the sample wallets *)

Import Sample.

(** C1: the scan over the trees does not stop at the first tree that has
    a solution: the callback of [forEach] overwrites [spendingTree] and
    [utxos] at every tree that has one, so the last such tree is returned.
    With an amount of 10 required, tree 0 has a solution, and the group
    returned spends from tree 1. *)
Theorem simple_scan_keeps_last_tree :
  refFindExactSolutionsOverTargetValue tree0 10 = Some [utxo 0 0 10]
  ∧ createSimpleSatisfyingUTXOGroup refFindExactSolutionsOverTargetValue
      [tree0; tree1] 10
    = Returned {| UTXOGroup.utxos := [utxo 1 0 12];
                  UTXOGroup.spendingTree := 1;
                  UTXOGroup.amount := 12 |}.
Proof. split; vm_compute; reflexivity. Qed.

Lemma simple_group_invariant_witness :
  sumZ (TransactNote.value <$> [note 7]) + 3 ≤ sumZ (noteValue <$> [utxo 1 0 12])
  ∧ ∃ treeBalance,
      [tree0; tree1] !! 1%nat = Some treeBalance
      ∧ [utxo 1 0 12] ⊆ TreeBalance.utxos treeBalance.
Proof.
  apply (simple_group_invariant refFindExactSolutionsOverTargetValue
           refIsValidFor3Outputs refFindExactSolutionsOverTargetValue_subseteq
           (batch [note 7] {[ hash := unshield 3 ]}) token hash [note 7]
           [tree0; tree1]
           {| SpendingSolutionGroup.utxos := [utxo 1 0 12];
              SpendingSolutionGroup.spendingTree := 1;
              SpendingSolutionGroup.unshieldValue := 3;
              SpendingSolutionGroup.tokenOutputs := [note 7];
              SpendingSolutionGroup.tokenData := token |}).
  vm_compute. reflexivity.
Defined.

Lemma generateValid_balance_too_low_witness :
  generateValidSpendingSolutionGroups refTokenDataHash
    refFindExactSolutionsOverTargetValue refIsValidFor3Outputs
    refCreateSpendingSolutionGroupsForOutput refCreateSpendingSolutionGroupsForUnshield
    0 (batch [note 10] {[ hash := unshield 3 ]}) (wallet [small0; small1]) token
  = Some (Thrown (BalanceTooLowERC20 (tokenAddress token))).
Proof.
  apply (generateValid_balance_too_low refTokenDataHash
           refFindExactSolutionsOverTargetValue refIsValidFor3Outputs
           refCreateSpendingSolutionGroupsForOutput
           refCreateSpendingSolutionGroupsForUnshield
           0 (batch [note 10] {[ hash := unshield 3 ]}) (wallet [small0; small1])
           token [small0; small1]).
  - vm_compute. reflexivity.
  - vm_compute. reflexivity.
Defined.

Lemma simple_group_rejected_for_3_outputs_witness :
  createSimpleSpendingSolutionGroupsIfPossible wholeTree refIsValidFor3Outputs
    (batch [note 7] {[ hash := unshield 3 ]}) token hash [note 7] [spread] 10
  = Returned None.
Proof.
  apply (simple_group_rejected_for_3_outputs wholeTree refIsValidFor3Outputs
           (batch [note 7] {[ hash := unshield 3 ]}) token hash [note 7] [spread] 10
           {| UTXOGroup.utxos := TreeBalance.utxos spread;
              UTXOGroup.spendingTree := 0;
              UTXOGroup.amount := 12 |}
           (unshield 3)).
  - vm_compute. reflexivity.
  - simpl. discriminate.
  - vm_compute. reflexivity.
  - simpl. lia.
  - simpl. lia.
  - vm_compute. reflexivity.
Defined.

Lemma complex_fallback_witness :
  ∃ groups remaining excluded,
    OutputPass refCreateSpendingSolutionGroupsForOutput token [small0; small1] []
      (tokenOutputsOf (batch [note 10] ∅) (refTokenDataHash token)) []
      (groups, remaining, excluded)
    ∧ generateValidSpendingSolutionGroups refTokenDataHash
        refFindExactSolutionsOverTargetValue refIsValidFor3Outputs
        refCreateSpendingSolutionGroupsForOutput
        refCreateSpendingSolutionGroupsForUnshield
        12 (batch [note 10] ∅) (wallet [small0; small1]) token
      = Some match remaining with
             | _ :: _ => Thrown ConsolidateBalance
             | [] =>
                 match unshieldDataMap (batch [note 10] ∅) !! refTokenDataHash token with
                 | None => Returned groups
                 | Some _ =>
                     match (refCreateSpendingSolutionGroupsForUnshield token
                              [small0; small1]
                              (unshieldTotal (batch [note 10] ∅) (refTokenDataHash token))
                              excluded).1 with
                     | [] => Thrown ConsolidateBalance
                     | unshieldGroups => Returned (groups ++ unshieldGroups)
                     end
                 end
             end.
Proof.
  apply (complex_fallback refTokenDataHash refFindExactSolutionsOverTargetValue
           refIsValidFor3Outputs refCreateSpendingSolutionGroupsForOutput
           refCreateSpendingSolutionGroupsForUnshield refMeasure
           refCreateSpendingSolutionGroupsForOutput_progress
           12 (batch [note 10] ∅) (wallet [small0; small1]) token [small0; small1]).
  - vm_compute. reflexivity.
  - vm_compute. discriminate.
  - vm_compute. reflexivity.
  - vm_compute. lia.
Defined.

Lemma addUnshieldData_throws_iff_witness :
  ∃ b', addUnshieldData refTokenDataHash (unshield 3) (batch [note 7] ∅)
          = (b', Returned ())
    ∧ unshieldDataMap b' = <[ hash := unshield 3 ]> ∅
    ∧ unshieldDataMap b' !! hash = Some (unshield 3)
    ∧ outputs b' = [note 7]
    ∧ adaptID b' = adaptID (batch [note 7] ∅)
    ∧ chain b' = chain (batch [note 7] ∅)
    ∧ overallBatchMinGasPrice b' = 0.
Proof.
  apply (proj2 (addUnshieldData_throws_iff refTokenDataHash (batch [note 7] ∅)
                  (unshield 3))).
  intros [[old Hold]|Hzero].
  - vm_compute in Hold. discriminate.
  - simpl in Hzero. lia.
Defined.

Lemma addUnshieldData_atomic_witness :
  (addUnshieldData refTokenDataHash (unshield 5)
     (batch [note 7] {[ hash := unshield 3 ]})).1
  = batch [note 7] {[ hash := unshield 3 ]}.
Proof.
  apply (addUnshieldData_atomic refTokenDataHash
           (batch [note 7] {[ hash := unshield 3 ]}) (unshield 5)
           UnshieldOncePerToken).
  vm_compute. reflexivity.
Defined.

Lemma createSimple_never_throws_witness :
  BalanceTooLowERC20 (tokenAddress token) ≠ NoSpendingSolutions
  ∧ BalanceTooLowERC20 (tokenAddress token) ≠ NotSatisfied
  ∧ BalanceTooLowERC20 (tokenAddress token) ≠ Requires3Outputs.
Proof.
  apply (proj2 (createSimple_never_throws refTokenDataHash
                  refFindExactSolutionsOverTargetValue refIsValidFor3Outputs
                  refCreateSpendingSolutionGroupsForOutput
                  refCreateSpendingSolutionGroupsForUnshield
                  (batch [note 10] {[ hash := unshield 3 ]}) token)
           0%nat (wallet [small0; small1])).
  vm_compute. reflexivity.
Defined.

(** C7, as stated, fails: with outputs of [2^120 - 1] and [1] the total of
    the outputs leaves the 120-bit range, the total of the balances does
    too, and the groups are generated all the same. *)
Lemma no_overflow_check_counterexample :
  MAX_UINT120 < outputTotal (tokenOutputsOf (batch [note MAX_UINT120; note 1] ∅) hash)
  ∧ MAX_UINT120 < tokenBalance [large0; large1]
  ∧ ∃ groups,
      generateValidSpendingSolutionGroups refTokenDataHash
        refFindExactSolutionsOverTargetValue refIsValidFor3Outputs
        refCreateSpendingSolutionGroupsForOutput
        refCreateSpendingSolutionGroupsForUnshield
        0 (batch [note MAX_UINT120; note 1] ∅) (wallet [large0; large1]) token
      = Some (Returned groups).
Proof.
  split; [vm_compute; reflexivity|]. split; [vm_compute; reflexivity|].
  eexists. vm_compute. reflexivity.
Qed.

(** ** The further properties on the sample wallets *)

Lemma generateValid_single_group_witness :
  generateValidSpendingSolutionGroups refTokenDataHash
    refFindExactSolutionsOverTargetValue refIsValidFor3Outputs
    refCreateSpendingSolutionGroupsForOutput refCreateSpendingSolutionGroupsForUnshield
    0 (batch [note 7] {[ hash := unshield 3 ]}) (wallet [tree0; tree1]) token
  = Some (Returned
      [ {| SpendingSolutionGroup.utxos := [utxo 1 0 12];
           SpendingSolutionGroup.spendingTree := 1;
           SpendingSolutionGroup.unshieldValue :=
             from_option UnshieldData.value 0
               (unshieldDataMap (batch [note 7] {[ hash := unshield 3 ]})
                  !! refTokenDataHash token);
           SpendingSolutionGroup.tokenOutputs :=
             filter (λ output, TransactNote.tokenHash output = refTokenDataHash token)
               (outputs (batch [note 7] {[ hash := unshield 3 ]}));
           SpendingSolutionGroup.tokenData := token |} ]).
Proof.
  apply (generateValid_single_group refTokenDataHash
           refFindExactSolutionsOverTargetValue refIsValidFor3Outputs
           refCreateSpendingSolutionGroupsForOutput
           refCreateSpendingSolutionGroupsForUnshield
           0 (batch [note 7] {[ hash := unshield 3 ]}) (wallet [tree0; tree1]) token
           [tree0; tree1] 1 tree1 [utxo 1 0 12]).
  - vm_compute. reflexivity.
  - vm_compute. discriminate.
  - reflexivity.
  - vm_compute. reflexivity.
  - intros [|[|j]] later Hj Hlater; [lia|lia|discriminate].
  - vm_compute. discriminate.
  - left. vm_compute. reflexivity.
Defined.

Lemma generateValid_unshield_nonempty_witness :
  [ {| SpendingSolutionGroup.utxos := [utxo 1 0 12];
       SpendingSolutionGroup.spendingTree := 1%nat;
       SpendingSolutionGroup.unshieldValue := 3;
       SpendingSolutionGroup.tokenOutputs := [note 7];
       SpendingSolutionGroup.tokenData := token |} ] ≠ [].
Proof.
  apply (generateValid_unshield_nonempty refTokenDataHash
           refFindExactSolutionsOverTargetValue refIsValidFor3Outputs
           refCreateSpendingSolutionGroupsForOutput
           refCreateSpendingSolutionGroupsForUnshield
           0 (batch [note 7] {[ hash := unshield 3 ]}) (wallet [tree0; tree1]) token).
  - vm_compute. reflexivity.
  - exists (unshield 3). vm_compute. reflexivity.
Defined.

Lemma addUnshieldData_totals_witness :
  unshieldTotal (batch [note 7] {[ hash := unshield 3 ]}) hash
    = (if decide (hash = refTokenDataHash (UnshieldData.tokenData (unshield 3)))
       then UnshieldData.value (unshield 3)
       else unshieldTotal (batch [note 7] ∅) hash)
  ∧ totalRequiredOf (batch [note 7] {[ hash := unshield 3 ]}) hash
    = totalRequiredOf (batch [note 7] ∅) hash
      + (if decide (hash = refTokenDataHash (UnshieldData.tokenData (unshield 3)))
         then UnshieldData.value (unshield 3) else 0).
Proof.
  apply (addUnshieldData_totals refTokenDataHash (batch [note 7] ∅)
           (batch [note 7] {[ hash := unshield 3 ]}) (unshield 3) hash).
  vm_compute. reflexivity.
Defined.


Lemma resetUnshieldData_then_add_witness :
  (∀ tokenHash,
     unshieldTotal (resetUnshieldData (batch [note 7] {[ hash := unshield 3 ]})).1
       tokenHash = 0)
  ∧ ∃ b', addUnshieldData refTokenDataHash (unshield 5)
            (resetUnshieldData (batch [note 7] {[ hash := unshield 3 ]})).1
          = (b', Returned ())
      ∧ unshieldDataMap b'
        = {[ refTokenDataHash (UnshieldData.tokenData (unshield 5)) := unshield 5 ]}
      ∧ outputs b' = outputs (batch [note 7] {[ hash := unshield 3 ]}).
Proof.
  apply (resetUnshieldData_then_add refTokenDataHash
           (batch [note 7] {[ hash := unshield 3 ]}) (unshield 5)).
  simpl. lia.
Defined.

Lemma outputs_partitioned_witness :
  ∃ i tokenData,
    getOutputTokenDatas refTokenDataHash values
      (batch [note 7; nftNote; note 3] {[ hash := unshield 3 ]}) !! i = Some tokenData
    ∧ note 3 ∈ tokenOutputsOf (batch [note 7; nftNote; note 3] {[ hash := unshield 3 ]})
                 (refTokenDataHash tokenData)
    ∧ ∀ j tokenData',
        getOutputTokenDatas refTokenDataHash values
          (batch [note 7; nftNote; note 3] {[ hash := unshield 3 ]}) !! j
          = Some tokenData' →
        note 3 ∈ tokenOutputsOf (batch [note 7; nftNote; note 3] {[ hash := unshield 3 ]})
                   (refTokenDataHash tokenData') →
        j = i.
Proof.
  apply (outputs_partitioned refTokenDataHash values
           (batch [note 7; nftNote; note 3] {[ hash := unshield 3 ]}) (note 3)).
  - simpl. apply elem_of_cons. right. apply elem_of_cons. right.
    apply elem_of_cons. by left.
  - reflexivity.
Defined.

Lemma values_values (m : gmap string UnshieldData.t) :
  values m ≡ₚ (map_to_list m).*2.
Proof. reflexivity. Qed.

Lemma unshields_covered_witness :
  ∃ tokenData,
    tokenData ∈ getOutputTokenDatas refTokenDataHash values
                  (runCalls refTokenDataHash
                     [CallAddOutput nftNote; CallAddUnshieldData (unshield 3)]
                     (newTransactionBatch hashZero {| chainType := EVM; chainId := 1 |}
                        None))
    ∧ refTokenDataHash tokenData = hash.
Proof.
  apply (unshields_covered refTokenDataHash hashZero values values_values
           {| chainType := EVM; chainId := 1 |} None
           [CallAddOutput nftNote; CallAddUnshieldData (unshield 3)] hash).
  exists (unshield 3). vm_compute. reflexivity.
Defined.

Lemma allOutputs_all_or_nothing_witness :
  ∃ e' tokenData,
    generateValidSpendingSolutionGroupsAllOutputs refTokenDataHash
      refFindExactSolutionsOverTargetValue refIsValidFor3Outputs
      refCreateSpendingSolutionGroupsForOutput
      refCreateSpendingSolutionGroupsForUnshield values
      5 (batch [note 7; nftNote] ∅) (wallet [tree0; tree1]) = Some (Thrown e')
    ∧ tokenData ∈ getOutputTokenDatas refTokenDataHash values (batch [note 7; nftNote] ∅)
    ∧ generateValidSpendingSolutionGroups refTokenDataHash
        refFindExactSolutionsOverTargetValue refIsValidFor3Outputs
        refCreateSpendingSolutionGroupsForOutput
        refCreateSpendingSolutionGroupsForUnshield
        5 (batch [note 7; nftNote] ∅) (wallet [tree0; tree1]) tokenData
      = Some (Thrown e').
Proof.
  assert (Htokens : getOutputTokenDatas refTokenDataHash values
                      (batch [note 7; nftNote] ∅) = [token; nft])
    by (vm_compute; reflexivity).
  apply (allOutputs_all_or_nothing refTokenDataHash
           refFindExactSolutionsOverTargetValue refIsValidFor3Outputs
           refCreateSpendingSolutionGroupsForOutput
           refCreateSpendingSolutionGroupsForUnshield values
           5 (batch [note 7; nftNote] ∅) (wallet [tree0; tree1]) nft
           (NoBalanceNFT (refTokenDataHash nft))).
  - rewrite Htokens. apply elem_of_cons. right. apply elem_of_cons. by left.
  - vm_compute. reflexivity.
  - rewrite Htokens. intros tokenData [->|[->|Hin]%elem_of_cons]%elem_of_cons.
    + eexists. vm_compute. reflexivity.
    + eexists. vm_compute. reflexivity.
    + by apply elem_of_nil in Hin.
Defined.

Lemma allOutputs_after_resets_witness :
  (resetUnshieldData (resetOutputs (batch [note 7] {[ hash := unshield 3 ]})).1).1
  = (resetOutputs (resetUnshieldData (batch [note 7] {[ hash := unshield 3 ]})).1).1
  ∧ getOutputTokenDatas refTokenDataHash values
      (resetUnshieldData (resetOutputs (batch [note 7] {[ hash := unshield 3 ]})).1).1
    = []
  ∧ generateValidSpendingSolutionGroupsAllOutputs refTokenDataHash
      refFindExactSolutionsOverTargetValue refIsValidFor3Outputs
      refCreateSpendingSolutionGroupsForOutput
      refCreateSpendingSolutionGroupsForUnshield values
      0 (resetUnshieldData (resetOutputs (batch [note 7] {[ hash := unshield 3 ]})).1).1
      (wallet [tree0; tree1])
    = Some (Returned []).
Proof.
  apply (allOutputs_after_resets refTokenDataHash
           refFindExactSolutionsOverTargetValue refIsValidFor3Outputs
           refCreateSpendingSolutionGroupsForOutput
           refCreateSpendingSolutionGroupsForUnshield values values_values
           0 (batch [note 7] {[ hash := unshield 3 ]}) (wallet [tree0; tree1])).
Defined.

Lemma legacy_generateValid_one_group_witness :
  ∃ group,
    [ {| Legacy.SpendingSolutionGroup.utxos := Legacy.TreeBalance.utxos (legacyTree 1 12);
         Legacy.SpendingSolutionGroup.spendingTree := 1;
         Legacy.SpendingSolutionGroup.withdrawValue := 2;
         Legacy.SpendingSolutionGroup.outputs :=
           [legacyNote "rail" 4; legacyNote "rail" 3] |} ] = [group]
    ∧ Legacy.SpendingSolutionGroup.outputs group
      = Legacy.outputs (legacyBatch [legacyNote "rail" 4; legacyNote "rail" 3] 2)
    ∧ Legacy.SpendingSolutionGroup.withdrawValue group
      = Legacy.withdrawTotal (legacyBatch [legacyNote "rail" 4; legacyNote "rail" 3] 2)
    ∧ sumZ (Legacy.Note.value <$> Legacy.SpendingSolutionGroup.outputs group)
      + Legacy.SpendingSolutionGroup.withdrawValue group
      ≤ sumZ ((λ utxo, Legacy.Note.value (Legacy.TXO.note utxo))
                <$> Legacy.SpendingSolutionGroup.utxos group)
    ∧ Forall (λ output, Legacy.Note.token output
                        = Legacy.tokenAddress
                            (legacyBatch [legacyNote "rail" 4; legacyNote "rail" 3] 2))
        (Legacy.outputs (legacyBatch [legacyNote "rail" 4; legacyNote "rail" 3] 2)).
Proof.
  apply (legacy_generateValid_one_group legacyFormat legacyTrim 20 legacySolver
           (legacyBatch [legacyNote "rail" 4; legacyNote "rail" 3] 2)
           (legacyWallet [legacyTree 0 5; legacyTree 1 12])).
  vm_compute. reflexivity.
Defined.

Lemma legacy_token_mismatch_first_witness :
  Legacy.generateValidSpendingSolutionGroups legacyFormat legacyTrim 20 legacySolver
    (legacyBatch [legacyNote "rail" 4; legacyNote "dai" 3; legacyNote "usdc" 1] 2)
    (legacyWallet [legacyTree 0 5; legacyTree 1 12])
  = Legacy.Thrown (Legacy.TokenAddressMismatch 1).
Proof.
  apply (legacy_token_mismatch_first legacyFormat legacyTrim 20 legacySolver
           (legacyBatch [legacyNote "rail" 4; legacyNote "dai" 3; legacyNote "usdc" 1] 2)
           (legacyWallet [legacyTree 0 5; legacyTree 1 12]) 1 (legacyNote "dai" 3)).
  - reflexivity.
  - simpl. discriminate.
  - intros [|j] earlier Hj Hearlier; [|lia]. simpl in Hearlier.
    by injection Hearlier as <-.
Defined.

Lemma legacy_generateValid_errors_witness :
  (∃ i output, Legacy.ComplexRequired = Legacy.TokenAddressMismatch i
     ∧ Legacy.outputs (legacyBatch [legacyNote "rail" 4; legacyNote "rail" 3] 2) !! i
       = Some output
     ∧ Legacy.Note.token output
       ≠ Legacy.tokenAddress (legacyBatch [legacyNote "rail" 4; legacyNote "rail" 3] 2))
  ∨ (Legacy.balancesByTree (legacyWallet [legacyTree 0 5; legacyTree 1 5])
       (Legacy.chainID (legacyBatch [legacyNote "rail" 4; legacyNote "rail" 3] 2))
       !! legacyFormat
            (Legacy.tokenAddress (legacyBatch [legacyNote "rail" 4; legacyNote "rail" 3] 2))
            32%nat (Some false) = None
     ∧ Legacy.ComplexRequired
       = Legacy.NoWalletBalance
           ("0x" +:+ legacyTrim
              (Legacy.tokenAddress
                 (legacyBatch [legacyNote "rail" 4; legacyNote "rail" 3] 2)) 20))
  ∨ (∃ trees,
       Legacy.balancesByTree (legacyWallet [legacyTree 0 5; legacyTree 1 5])
         (Legacy.chainID (legacyBatch [legacyNote "rail" 4; legacyNote "rail" 3] 2))
         !! legacyFormat
              (Legacy.tokenAddress
                 (legacyBatch [legacyNote "rail" 4; legacyNote "rail" 3] 2))
              32%nat (Some false) = Some trees
       ∧ sumZ (Legacy.TreeBalance.balance <$> trees)
         < sumZ (Legacy.Note.value
                   <$> Legacy.outputs
                         (legacyBatch [legacyNote "rail" 4; legacyNote "rail" 3] 2))
           + Legacy.withdrawTotal (legacyBatch [legacyNote "rail" 4; legacyNote "rail" 3] 2)
       ∧ Legacy.ComplexRequired = Legacy.WalletBalanceTooLow)
  ∨ (∃ trees,
       Legacy.balancesByTree (legacyWallet [legacyTree 0 5; legacyTree 1 5])
         (Legacy.chainID (legacyBatch [legacyNote "rail" 4; legacyNote "rail" 3] 2))
         !! legacyFormat
              (Legacy.tokenAddress
                 (legacyBatch [legacyNote "rail" 4; legacyNote "rail" 3] 2))
              32%nat (Some false) = Some trees
       ∧ sumZ (Legacy.Note.value
                 <$> Legacy.outputs
                       (legacyBatch [legacyNote "rail" 4; legacyNote "rail" 3] 2))
         + Legacy.withdrawTotal (legacyBatch [legacyNote "rail" 4; legacyNote "rail" 3] 2)
         ≤ sumZ (Legacy.TreeBalance.balance <$> trees)
       ∧ Legacy.ComplexRequired = Legacy.ComplexRequired).
Proof.
  apply (legacy_generateValid_errors legacyFormat legacyTrim 20 legacySolver
           (legacyBatch [legacyNote "rail" 4; legacyNote "rail" 3] 2)
           (legacyWallet [legacyTree 0 5; legacyTree 1 5]) Legacy.ComplexRequired).
  vm_compute. reflexivity.
Defined.

Lemma legacy_setWithdraw_once_witness :
  let b1 := (Legacy.setWithdraw (option Z) legacyBigInt "0xabc" None (Some "0xdef")
               (legacyBatch [] 0)).1 in
  Legacy.withdrawAddress b1 = Some "0xabc"
  ∧ Legacy.outputs b1 = []
  ∧ ((Legacy.setWithdraw (option Z) legacyBigInt "0xabc" None (Some "0xdef")
        (legacyBatch [] 0)).2 = Legacy.Thrown Legacy.BigIntConversion
     ∧ Legacy.withdrawTotal b1 = 0
     ∧ Legacy.overrideWithdrawAddress b1 = None)
  ∧ Legacy.setWithdraw (option Z) legacyBigInt "0x123" (Some 5) None b1
    = (b1, Legacy.Thrown Legacy.WithdrawOnce).
Proof.
  apply (legacy_setWithdraw_once (option Z) legacyBigInt (legacyBatch [] 0)
           "0xabc" None (Some "0xdef") "0x123" (Some 5) None).
  reflexivity.
Defined.

(** C3, as stated for every wallet, fails: the wallet holds no balances
    for the token, so the aggregate over its trees (there are none) is 0,
    strictly below the amount of 1 that the batch requires, and what is
    thrown is the can-not-find-balance error, not the balance-too-low
    error. *)
Lemma balance_too_low_counterexample :
  balancesByTree (wallet [tree0; tree1]) (chain (batch [nftNote] ∅))
    !! refTokenDataHash nft = None
  ∧ tokenBalance
      (default [] (balancesByTree (wallet [tree0; tree1]) (chain (batch [nftNote] ∅))
                     !! refTokenDataHash nft))
    < sumZ (TransactNote.value <$>
              filter (λ output, TransactNote.tokenHash output = refTokenDataHash nft)
                (outputs (batch [nftNote] ∅)))
      + from_option UnshieldData.value 0
          (unshieldDataMap (batch [nftNote] ∅) !! refTokenDataHash nft)
  ∧ generateValidSpendingSolutionGroups refTokenDataHash
      refFindExactSolutionsOverTargetValue refIsValidFor3Outputs
      refCreateSpendingSolutionGroupsForOutput
      refCreateSpendingSolutionGroupsForUnshield
      0 (batch [nftNote] ∅) (wallet [tree0; tree1]) nft
    = Some (Thrown (NoBalanceNFT (refTokenDataHash nft)))
  ∧ generateValidSpendingSolutionGroups refTokenDataHash
      refFindExactSolutionsOverTargetValue refIsValidFor3Outputs
      refCreateSpendingSolutionGroupsForOutput
      refCreateSpendingSolutionGroupsForUnshield
      0 (batch [nftNote] ∅) (wallet [tree0; tree1]) nft
    ≠ Some (Thrown BalanceTooLowNFT).
Proof.
  split_and!.
  - vm_compute. reflexivity.
  - vm_compute. reflexivity.
  - vm_compute. reflexivity.
  - vm_compute. discriminate.
Qed.
